(** * Ingestion pipelines of the two Streamlit dashboards

    A shallow embedding of the data loaders of [Lab_9.py]
    ([load_national_data], [load_state_data]) and of
    [blog_post_3_streamlit.py] ([load_data]), together with the library
    calls they are made of: Python's [str.endswith], slicing and [int],
    [zipfile.ZipFile.namelist]/[open], [pandas.read_csv],
    [DataFrame.columns] assignment, scalar column assignment,
    [pandas.concat] and Streamlit's [st.cache_data].

    Conventions.
    - A Python [str] is a [string]; every [ascii] stands for one character
      (code below 256). File contents are ASCII text.
    - A raised exception is the [Raise] case of [result]; the exception
      class is kept, its message is not.
    - A cell of a table is a [value]: a whole number of an integer
      column, a float given by a literal, a boolean, a string or a
      missing value. The type of a column is read off its cells.
    - [read_csv] is the C parser with its default dialect on a file read
      in one piece.
    - [concat] gives a column whose pieces differ in type the common type
      that numpy finds for them: whole numbers beside floats are floats,
      a boolean beside whole numbers is 0 or 1. *)

From stdpp Require Import base decidable option list gmap strings fin_maps.
From Stdlib Require Import ZArith Ascii String DecimalString List Lia.
Import ListNotations.

Local Open Scope string_scope.
Local Open Scope list_scope.
Local Open Scope nat_scope.

(** ** Exceptions *)

Inductive exn : Type :=
| ValueError
| KeyError
| ParserError
| EmptyDataError
| AttributeError
| ConnectionError.

Inductive result (A : Type) : Type :=
| Ok (a : A)
| Raise (e : exn).
Arguments Ok {A} a.
Arguments Raise {A} e.

Global Instance result_ret : MRet result := fun A a => Ok a.
Global Instance result_bind : MBind result := fun A B k r =>
  match r with
  | Ok a => k a
  | Raise e => Raise e
  end.

(** A [for] loop over a list, threading the loop's variables and stopping
    at the first exception. *)
Fixpoint for_loop {A S} (body : S -> A -> result S) (s : S) (l : list A)
    : result S :=
  match l with
  | [] => Ok s
  | x :: l' =>
      s' ← body s x;
      for_loop body s' l'
  end.

(** [f] on each element of a list in order, stopping at the first
    exception. *)
Fixpoint mapM {A B} (f : A -> result B) (l : list A) : result (list B) :=
  match l with
  | [] => Ok []
  | x :: l' =>
      y ← f x;
      ys ← mapM f l';
      Ok (y :: ys)
  end.

(** ** Python strings *)

Definition chars (s : string) : list ascii := list_ascii_of_string s.
Definition text (l : list ascii) : string := string_of_list_ascii l.

Definition code (c : ascii) : nat := nat_of_ascii c.

(** [s.endswith(suffix)]: case-sensitive comparison of the last characters. *)
Definition endswith (s suffix : string) : bool :=
  let n := String.length s in
  let m := String.length suffix in
  (m <=? n) && String.eqb (substring (n - m) m s) suffix.

(** [s.startswith(prefix)]. *)
Definition startswith (s pre : string) : bool :=
  String.eqb (substring 0 (String.length pre) s) pre.

(** [s[i:j]] for [0 <= i <= j]: never raises, the result is cut at the
    end of [s]. *)
Definition slice (s : string) (i j : nat) : string := substring i (j - i) s.

Definition is_digit (c : ascii) : bool := (48 <=? code c) && (code c <=? 57).
Definition digit_val (c : ascii) : Z := Z.of_nat (code c - 48).

(** Whitespace that [int] passes over at both ends: TAB..CR and SPACE,
    and of the characters from 128 on NEL and the no-break space. The
    separators FS..US are not among them. *)
Definition py_isspace (c : ascii) : bool :=
  ((9 <=? code c) && (code c <=? 13)) || (code c =? 32)
  || (code c =? 133) || (code c =? 160).

Fixpoint drop_while {A} (p : A -> bool) (l : list A) : list A :=
  match l with
  | [] => []
  | x :: l' => if p x then drop_while p l' else l
  end.

Definition strip_with (sp : ascii -> bool) (l : list ascii) : list ascii :=
  rev (drop_while sp (rev (drop_while sp l))).

(** Digits of a decimal literal; [seps] tells whether a single underscore
    is accepted between two digits (Python) or not (the C parser). *)
Fixpoint digits_value (seps : bool) (acc : Z) (after_digit : bool)
    (l : list ascii) : option Z :=
  match l with
  | [] => if after_digit then Some acc else None
  | c :: l' =>
      if is_digit c then digits_value seps (10 * acc + digit_val c)%Z true l'
      else if seps && Ascii.eqb c "_"%char && after_digit
           then digits_value seps acc false l'
           else None
  end.

Definition signed_value (seps : bool) (l : list ascii) : option Z :=
  match l with
  | c :: l' =>
      if Ascii.eqb c "-"%char then Z.opp <$> digits_value seps 0%Z false l'
      else if Ascii.eqb c "+"%char then digits_value seps 0%Z false l'
      else digits_value seps 0%Z false l
  | [] => None
  end.

(** [int(s)] on a string, base ten. *)
Definition py_int (s : string) : result Z :=
  match signed_value true (strip_with py_isspace (chars s)) with
  | Some z => Ok z
  | None => Raise ValueError
  end.

(** ** Zip archives

    An opened [zipfile.ZipFile] is the list of its members in central
    directory order, each a file name with its decompressed content.
    [ZipFile] keeps that list ([filelist]) and a dictionary from names to
    members ([NameToInfo]) filled in the same order, so that of two members
    with one name the later one is the one [open] finds. *)

Definition Archive : Type := list (string * string).

Definition namelist (z : Archive) : list string := map fst z.

Definition NameToInfo (z : Archive) : gmap string string :=
  foldl (fun d member => <[fst member := snd member]> d) ∅ z.

(** [z.open(name).read()]. *)
Definition zopen (z : Archive) (name : string) : result string :=
  match NameToInfo z !! name with
  | Some content => Ok content
  | None => Raise KeyError
  end.

(** ** Tables *)

(** Column labels: positions (what [read_csv(header=None)] gives) or names. *)
Inductive label : Type :=
| LPos (i : nat)
| LName (s : string).

Global Instance label_eq_dec : EqDecision label.
Proof. solve_decision. Defined.

(** Cell values. [VFloat lit] is the double that the literal [lit]
    denotes, [VNaN] a missing value. *)
Inductive value : Type :=
| VInt (z : Z)
| VFloat (lit : string)
| VBool (b : bool)
| VStr (s : string)
| VNaN.

Global Instance value_eq_dec : EqDecision value.
Proof. solve_decision. Defined.

Record DataFrame : Type := mkFrame {
  columns : list label;
  rows : list (list value)
}.

Definition nrows (df : DataFrame) : nat := length (rows df).

(** ** [pandas.read_csv]: the tokenizer

    The C tokenizer with the default dialect: a comma as delimiter, the
    double quote as quote character, doubled inside quoted fields, lines ended by LF,
    CR or CR LF, blank lines skipped. It is a state machine run over the
    characters; [tk_field] and [tk_line] are kept in reverse. *)

Definition LF : ascii := ascii_of_nat 10.
Definition CR : ascii := ascii_of_nat 13.
Definition TAB : ascii := ascii_of_nat 9.
Definition QUOTE : ascii := ascii_of_nat 34.
Definition COMMA : ascii := ","%char.
Definition SPACE : ascii := " "%char.

Inductive ParserState : Type :=
| START_RECORD
| START_FIELD
| IN_FIELD
| IN_QUOTED_FIELD
| QUOTE_IN_QUOTED_FIELD
| EAT_CRNL
| EAT_CRNL_NOP
| WHITESPACE_LINE.

Record parser_t : Type := mkParser {
  tk_state : ParserState;
  tk_field : list ascii;
  tk_line : list string;
  tk_lines : list (list string)
}.

Definition set_state (st : ParserState) (p : parser_t) : parser_t :=
  mkParser st (tk_field p) (tk_line p) (tk_lines p).

Definition push_char (c : ascii) (p : parser_t) : parser_t :=
  mkParser (tk_state p) (c :: tk_field p) (tk_line p) (tk_lines p).

Definition end_field (p : parser_t) : parser_t :=
  mkParser (tk_state p) [] (text (rev (tk_field p)) :: tk_line p) (tk_lines p).

Definition end_line (p : parser_t) : parser_t :=
  mkParser START_RECORD [] [] (rev (tk_line p) :: tk_lines p).

Definition is_blank (c : ascii) : bool := Ascii.eqb c SPACE || Ascii.eqb c TAB.

Definition on_start_field (c : ascii) (p : parser_t) : parser_t :=
  if Ascii.eqb c LF then end_line (end_field p)
  else if Ascii.eqb c CR then set_state EAT_CRNL (end_field p)
  else if Ascii.eqb c QUOTE then set_state IN_QUOTED_FIELD p
  else if Ascii.eqb c COMMA then set_state START_FIELD (end_field p)
  else set_state IN_FIELD (push_char c p).

Definition on_in_field (c : ascii) (p : parser_t) : parser_t :=
  if Ascii.eqb c LF then end_line (end_field p)
  else if Ascii.eqb c CR then set_state EAT_CRNL (end_field p)
  else if Ascii.eqb c COMMA then set_state START_FIELD (end_field p)
  else push_char c p.

Definition on_start_record (c : ascii) (p : parser_t) : parser_t :=
  if Ascii.eqb c LF then p
  else if Ascii.eqb c CR then set_state EAT_CRNL_NOP p
  else if is_blank c then set_state WHITESPACE_LINE (push_char c p)
  else on_start_field c p.

(** One character. A line of blanks only is dropped; when another
    character follows the blanks they are the beginning of its first
    field. *)
Definition tokenize_char (p : parser_t) (c : ascii) : parser_t :=
  match tk_state p with
  | START_RECORD => on_start_record c p
  | START_FIELD => on_start_field c p
  | IN_FIELD => on_in_field c p
  | IN_QUOTED_FIELD =>
      if Ascii.eqb c QUOTE then set_state QUOTE_IN_QUOTED_FIELD p
      else push_char c p
  | QUOTE_IN_QUOTED_FIELD =>
      if Ascii.eqb c QUOTE then set_state IN_QUOTED_FIELD (push_char c p)
      else if Ascii.eqb c COMMA then set_state START_FIELD (end_field p)
      else if Ascii.eqb c LF then end_line (end_field p)
      else if Ascii.eqb c CR then set_state EAT_CRNL (end_field p)
      else set_state IN_FIELD (push_char c p)
  | EAT_CRNL =>
      if Ascii.eqb c LF then end_line p
      else on_start_record c (end_line p)
  | EAT_CRNL_NOP =>
      if Ascii.eqb c LF || Ascii.eqb c COMMA then set_state START_RECORD p
      else on_start_record c (set_state START_RECORD p)
  | WHITESPACE_LINE =>
      if Ascii.eqb c LF then mkParser START_RECORD [] [] (tk_lines p)
      else if Ascii.eqb c CR then mkParser EAT_CRNL_NOP [] [] (tk_lines p)
      else if is_blank c then push_char c p
      else on_in_field c (set_state IN_FIELD p)
  end.

(** End of input: an open quoted field is an error, an open line is closed. *)
Definition handle_eof (p : parser_t) : result (list (list string)) :=
  match tk_state p with
  | START_RECORD | WHITESPACE_LINE | EAT_CRNL_NOP => Ok (rev (tk_lines p))
  | IN_QUOTED_FIELD => Raise ParserError
  | IN_FIELD | START_FIELD | QUOTE_IN_QUOTED_FIELD =>
      Ok (rev (tk_lines (end_line (end_field p))))
  | EAT_CRNL => Ok (rev (tk_lines (end_line p)))
  end.

(** The lines of a file, each the list of its fields. *)
Definition tokenize (content : string) : result (list (list string)) :=
  handle_eof (foldl tokenize_char (mkParser START_RECORD [] [] []) (chars content)).

(** ** [pandas.read_csv]: missing values and column types *)

Definition na_values : list string :=
  [""; "#N/A"; "#N/A N/A"; "#NA"; "-1.#IND"; "-1.#QNAN"; "-NaN"; "-nan";
   "1.#IND"; "1.#QNAN"; "<NA>"; "N/A"; "NA"; "NULL"; "NaN"; "None"; "n/a";
   "nan"; "null"].

Definition is_na (tok : string) : bool := existsb (String.eqb tok) na_values.

(** Whitespace of the C parser: TAB..CR and SPACE. *)
Definition c_isspace (c : ascii) : bool :=
  ((9 <=? code c) && (code c <=? 13)) || (code c =? 32).

(** What an integer converter makes of one token. *)
Inductive int_token : Type :=
| IntValue (z : Z)
| IntNegative
| IntInvalid
| IntOverflow.

(** The digits at the head of [l], read from the left into [acc]; [None]
    as soon as the value leaves the range from [lo] to [hi]. *)
Fixpoint read_digits (neg : bool) (lo hi acc : Z) (l : list ascii)
    : option (Z * list ascii) :=
  match l with
  | c :: l' =>
      if is_digit c then
        let acc' := if neg then (10 * acc - digit_val c)%Z
                    else (10 * acc + digit_val c)%Z in
        if (lo <=? acc')%Z && (acc' <=? hi)%Z
        then read_digits neg lo hi acc' l'
        else None
      else Some (acc, l)
  | [] => Some (acc, [])
  end.

Definition digits_then_blanks (neg : bool) (lo hi : Z) (l : list ascii)
    : int_token :=
  match l with
  | c :: _ =>
      if is_digit c then
        match read_digits neg lo hi 0 l with
        | None => IntOverflow
        | Some (z, rest) =>
            match drop_while c_isspace rest with
            | [] => IntValue z
            | _ :: _ => IntInvalid
            end
        end
      else IntInvalid
  | [] => IntInvalid
  end.

Definition INT64_MIN : Z := (- 2 ^ 63)%Z.
Definition INT64_MAX : Z := (2 ^ 63 - 1)%Z.
Definition UINT64_MAX : Z := (2 ^ 64 - 1)%Z.

(** [str_to_int64]: blanks, a sign, digits within 64 bits, blanks. *)
Definition str_to_int64 (tok : string) : int_token :=
  match drop_while c_isspace (chars tok) with
  | c :: l =>
      if Ascii.eqb c "-"%char then digits_then_blanks true INT64_MIN INT64_MAX l
      else if Ascii.eqb c "+"%char
           then digits_then_blanks false INT64_MIN INT64_MAX l
           else digits_then_blanks false INT64_MIN INT64_MAX (c :: l)
  | [] => IntInvalid
  end.

(** [str_to_uint64]: a token that begins with a minus sign is noted and
    not read further. *)
Definition str_to_uint64 (tok : string) : int_token :=
  match drop_while c_isspace (chars tok) with
  | c :: l =>
      if Ascii.eqb c "-"%char then IntNegative
      else if Ascii.eqb c "+"%char then digits_then_blanks false 0 UINT64_MAX l
           else digits_then_blanks false 0 UINT64_MAX (c :: l)
  | [] => IntInvalid
  end.

Definition drop_sign (l : list ascii) : list ascii :=
  match l with
  | c :: l' => if Ascii.eqb c "-"%char || Ascii.eqb c "+"%char then l' else l
  | [] => []
  end.

(** What follows the mantissa [digits [. digits]] of a decimal literal;
    [None] when the mantissa has no digit. *)
Definition after_mantissa (l : list ascii) : option (list ascii) :=
  let r1 := drop_while is_digit l in
  let r2 := match r1 with
            | c :: r => if Ascii.eqb c "."%char then drop_while is_digit r else r1
            | [] => r1
            end in
  let dot := match r1 with
             | c :: _ => if Ascii.eqb c "."%char then 1 else 0
             | [] => 0
             end in
  if length l - length r2 - dot =? 0 then None else Some r2.

(** Nothing, or an exponent [e [sign] digits] with at least one digit. *)
Definition exponent_ok (l : list ascii) : bool :=
  match l with
  | [] => true
  | c :: r =>
      (Ascii.eqb c "e"%char || Ascii.eqb c "E"%char) &&
      (let r' := drop_sign r in
       match r', drop_while is_digit r' with
       | _ :: _, [] => true
       | _, _ => false
       end)
  end.

Definition lower (c : ascii) : ascii :=
  if (65 <=? code c) && (code c <=? 90) then ascii_of_nat (code c + 32) else c.

Definition lowercase (s : string) : string := text (map lower (chars s)).

Definition inf_words : list string :=
  ["inf"; "+inf"; "-inf"; "infinity"; "+infinity"; "-infinity"].

(** A token the float converter accepts. *)
Definition is_float (tok : string) : bool :=
  match after_mantissa (drop_sign (strip_with c_isspace (chars tok))) with
  | Some r => exponent_ok r
  | None => false
  end || existsb (String.eqb (lowercase tok)) inf_words.

Definition is_true (tok : string) : bool := String.eqb (lowercase tok) "true".
Definition is_false (tok : string) : bool := String.eqb (lowercase tok) "false".

(** The converters are tried on a whole column in the order integer,
    float, boolean, and the column is left as strings when all fail. What
    is decided for a column:
    - [KInt64]: every token is a whole number of 64 bits;
    - [KIntNA]: the same with missing values, which makes the column one
      of floats;
    - [KUInt64]: whole numbers, some beyond [INT64_MAX], none negative or
      missing;
    - [KFloat64], [KBool]: float or boolean words, or missing values;
    - [KObject]: strings, and missing values where a token stands for one;
    - [KStrings]: every token as it is. *)
Inductive kind : Type :=
| KInt64 | KIntNA | KUInt64 | KFloat64 | KBool | KObject | KStrings.

(** The integer converter stops at the first token it cannot take. *)
Fixpoint first_int64_error (col : list string) : option int_token :=
  match col with
  | [] => None
  | tok :: col' =>
      if is_na tok then first_int64_error col'
      else match str_to_int64 tok with
           | IntValue _ => first_int64_error col'
           | e => Some e
           end
  end.

(** The unsigned converter notes what it has seen: a minus sign, a value
    beyond [INT64_MAX], a missing value. *)
Fixpoint uint64_pass (seen_sint seen_uint seen_null : bool) (col : list string)
    : int_token + (bool * bool * bool) :=
  match col with
  | [] => inr (seen_sint, seen_uint, seen_null)
  | tok :: col' =>
      if is_na tok then uint64_pass seen_sint seen_uint true col'
      else match str_to_uint64 tok with
           | IntValue z =>
               uint64_pass seen_sint (seen_uint || (INT64_MAX <? z)%Z) seen_null col'
           | IntNegative => uint64_pass true seen_uint seen_null col'
           | e => inl e
           end
  end.

(** From the float converter on. *)
Definition infer_float (col : list string) : kind :=
  if forallb (fun tok => is_na tok || is_float tok) col then KFloat64
  else if forallb (fun tok => is_na tok || is_true tok || is_false tok) col
       then KBool
       else KObject.

Definition infer (col : list string) : kind :=
  match first_int64_error col with
  | None => if existsb is_na col then KIntNA else KInt64
  | Some IntOverflow =>
      match uint64_pass false false false col with
      | inl IntOverflow => KObject
      | inl _ => infer_float col
      | inr (seen_sint, seen_uint, seen_null) =>
          if seen_uint && (seen_sint || seen_null) then KStrings
          else if seen_sint then KObject
          else KUInt64
      end
  | Some _ => infer_float col
  end.

Definition decimal (z : Z) : string := NilZero.string_of_int (Z.to_int z).

Definition int_value (t : int_token) : Z :=
  match t with
  | IntValue z => z
  | _ => 0%Z
  end.

(** The cell of a token in a column of kind [k]. In a column of floats a
    whole number is the float nearest to it: [VFloat] of its digits. *)
Definition convert (k : kind) (tok : string) : value :=
  match k with
  | KStrings => VStr tok
  | _ =>
      if is_na tok then VNaN
      else match k with
           | KInt64 => VInt (int_value (str_to_int64 tok))
           | KIntNA => VFloat (decimal (int_value (str_to_int64 tok)))
           | KUInt64 => VInt (int_value (str_to_uint64 tok))
           | KFloat64 => VFloat tok
           | KBool => VBool (is_true tok)
           | KObject | KStrings => VStr tok
           end
  end.

(** A line with fewer fields than the first one is filled up with empty
    fields. *)
Definition pad (w : nat) (line : list string) : list string :=
  line ++ replicate (w - length line) "".

Definition column_tokens (table : list (list string)) (i : nat) : list string :=
  map (fun line => nth i line "") table.

(** The table of a tokenized file without header line: the first line
    fixes the number of columns, a later line with more fields is an
    error, and the columns are labelled by position. *)
Definition frame_of_lines (lines : list (list string)) : result DataFrame :=
  match lines with
  | [] => Raise EmptyDataError
  | first :: rest =>
      let w := length first in
      if existsb (fun line => w <? length line) rest then Raise ParserError
      else
        let table := map (pad w) lines in
        let kinds := map (fun i => infer (column_tokens table i)) (seq 0 w) in
        Ok (mkFrame (map LPos (seq 0 w)) (map (zip_with convert kinds) table))
  end.

(** [pd.read_csv(f, header=None)]. *)
Definition read_csv (content : string) : result DataFrame :=
  lines ← tokenize content;
  frame_of_lines lines.

(** ** Operations on tables *)

(** [df.columns = names]. *)
Definition set_columns (df : DataFrame) (names : list string)
    : result DataFrame :=
  if length (columns df) =? length names
  then Ok (mkFrame (map LName names) (rows df))
  else Raise ValueError.

Fixpoint index_of (l : label) (cols : list label) : option nat :=
  match cols with
  | [] => None
  | c :: cs => if decide (c = l) then Some 0 else S <$> index_of l cs
  end.

(** [df[l] = v] for a scalar [v]: the column is overwritten when it
    exists and added at the end otherwise. *)
Definition setitem (df : DataFrame) (l : label) (v : value) : DataFrame :=
  match index_of l (columns df) with
  | Some i => mkFrame (columns df) (map (fun row => <[i := v]> row) (rows df))
  | None => mkFrame (columns df ++ [l]) (map (fun row => row ++ [v]) (rows df))
  end.

(** The cell of a row under a label, missing when the label is absent. *)
Fixpoint cell_of (cols : list label) (row : list value) (l : label) : value :=
  match cols, row with
  | c :: cs, v :: vs => if decide (c = l) then v else cell_of cs vs l
  | _, _ => VNaN
  end.

Definition reindex (src dst : list label) (row : list value) : list value :=
  map (cell_of src row) dst.

(** The labels of all frames, each once, in order of first appearance. *)
Definition union_labels (dfs : list DataFrame) : list label :=
  foldl (fun acc df =>
           acc ++ List.filter (fun l => negb (bool_decide (l ∈ acc))) (columns df))
        [] dfs.

(** The type of a column, read off its cells: whole numbers of 64 bits,
    signed or, with a value beyond [INT64_MAX], unsigned; floats with
    missing values; booleans; or anything ([DObject]). *)
Inductive dtype : Type := DBool | DInt64 | DUInt64 | DFloat64 | DObject.

Definition is_VInt (v : value) : bool :=
  match v with VInt _ => true | _ => false end.
Definition is_VFloat (v : value) : bool :=
  match v with VFloat _ | VNaN => true | _ => false end.
Definition is_VBool (v : value) : bool :=
  match v with VBool _ => true | _ => false end.
Definition is_int64 (v : value) : bool :=
  match v with
  | VInt z => (INT64_MIN <=? z)%Z && (z <=? INT64_MAX)%Z
  | _ => false
  end.
Definition is_uint64 (v : value) : bool :=
  match v with
  | VInt z => (0 <=? z)%Z && (z <=? UINT64_MAX)%Z
  | _ => false
  end.

Definition dtype_of (cells : list value) : dtype :=
  match cells with
  | [] => DObject
  | _ :: _ =>
      if forallb is_int64 cells then DInt64
      else if forallb is_uint64 cells then DUInt64
      else if forallb is_VFloat cells then DFloat64
      else if forallb is_VBool cells then DBool
      else DObject
  end.

Definition column_cells (block : list (list value)) (j : nat) : list value :=
  map (fun row => nth j row VNaN) block.

Definition is_DObject (d : dtype) : bool :=
  match d with DObject => true | _ => false end.
Definition is_DFloat64 (d : dtype) : bool :=
  match d with DFloat64 => true | _ => false end.
Definition is_DInt64 (d : dtype) : bool :=
  match d with DInt64 => true | _ => false end.
Definition is_DUInt64 (d : dtype) : bool :=
  match d with DUInt64 => true | _ => false end.

(** The common type of the pieces of a column, as [numpy.result_type]
    gives it: the type that holds them all, booleans counting as the
    numbers 0 and 1, and floats for signed with unsigned whole numbers. *)
Definition result_type (ds : list dtype) : dtype :=
  if existsb is_DObject ds then DObject
  else if existsb is_DFloat64 ds then DFloat64
  else if existsb is_DInt64 ds && existsb is_DUInt64 ds then DFloat64
  else if existsb is_DUInt64 ds then DUInt64
  else if existsb is_DInt64 ds then DInt64
  else DBool.

(** A cell in a column of type [d]. *)
Definition astype (d : dtype) (v : value) : value :=
  match d, v with
  | DInt64, VBool b => VInt (Z.b2z b)
  | DUInt64, VBool b => VInt (Z.b2z b)
  | DFloat64, VBool b => VFloat (decimal (Z.b2z b))
  | DFloat64, VInt z => VFloat (decimal z)
  | _, _ => v
  end.

(** The rows of each frame under the labels [cols]. *)
Definition blocks_of (cols : list label) (dfs : list DataFrame)
    : list (list (list value)) :=
  map (fun df => map (reindex (columns df) cols) (rows df)) dfs.

(** The common types of the columns of row blocks that all have the same
    [w] columns. *)
Definition common_types (w : nat) (blocks : list (list (list value)))
    : list dtype :=
  map (fun j => result_type (map (fun block => dtype_of (column_cells block j)) blocks))
      (seq 0 w).

Definition has_label (l : label) (df : DataFrame) : bool :=
  bool_decide (l ∈ columns df).

(** A type that holds missing values. *)
Definition hold_na (d : dtype) : dtype :=
  match d with
  | DBool => DObject
  | DInt64 | DUInt64 => DFloat64
  | DFloat64 | DObject => d
  end.

(** The type of the column [l] of the assembled table: the common type of
    the frames that have the column, made to hold missing values when
    some frame has it not. *)
Definition column_type (dfs : list DataFrame) (l : label) : dtype :=
  let t := result_type
             (map (fun df => dtype_of (map (fun row => cell_of (columns df) row l)
                                         (rows df)))
                  (List.filter (has_label l) dfs)) in
  if forallb (has_label l) dfs then t else hold_na t.

(** [pd.concat(dfs, ignore_index=True)]: rows one frame after the other
    under the union of the labels; a frame without some label gets missing
    values there, and each column takes the common type of its pieces.
    An empty list of frames is an error. *)
Definition concat (dfs : list DataFrame) : result DataFrame :=
  match dfs with
  | [] => Raise ValueError
  | _ :: _ =>
      let cols := union_labels dfs in
      let types := map (column_type dfs) cols in
      Ok (mkFrame cols (flat_map (map (zip_with astype types)) (blocks_of cols dfs)))
  end.

(** ** The loaders of [Lab_9.py] *)

Definition national_names : list string := ["name"; "sex"; "count"].
Definition state_names : list string := ["state"; "sex"; "year"; "name"; "count"].

(** The table that one turn of the loop of [load_national_data] makes of
    the file named [file]. *)
Definition national_entry (z : Archive) (file : string) : result DataFrame :=
  f ← zopen z file;
  df ← read_csv f;
  df ← set_columns df national_names;
  year ← py_int (slice file 3 7);
  Ok (setitem df (LName "year") (VInt year)).

(** Body of the loop of [load_national_data]; [dfs] is the list it extends. *)
Definition national_body (z : Archive) (dfs : list DataFrame) (file : string)
    : result (list DataFrame) :=
  df ← national_entry z file;
  Ok (dfs ++ [df]).

(** [load_national_data] inside [with zipfile.ZipFile(...) as z]. *)
Definition national_from_archive (z : Archive) : result DataFrame :=
  let files := List.filter (fun file => endswith file ".txt") (namelist z) in
  dfs ← for_loop (national_body z) [] files;
  concat dfs.

(** The table that one turn of the loop of [load_state_data] makes of a
    file whose name passed the test. *)
Definition state_entry (z : Archive) (file : string) : result DataFrame :=
  f ← zopen z file;
  df ← read_csv f;
  set_columns df state_names.

(** Body of the loop of [load_state_data]. *)
Definition state_body (z : Archive) (dfs : list DataFrame) (file : string)
    : result (list DataFrame) :=
  if endswith file ".TXT" then
    df ← state_entry z file;
    Ok (dfs ++ [df])
  else Ok dfs.

(** [load_state_data] inside [with zipfile.ZipFile(...) as z]. *)
Definition state_from_archive (z : Archive) : result DataFrame :=
  dfs ← for_loop (state_body z) [] (namelist z);
  concat dfs.

(** ** The network and the cache of the process

    [requests.get(url)] followed by [zipfile.ZipFile(BytesIO(...))] is one
    request: the process records the address in its log, and what comes
    back (an archive, or an exception when the server cannot be reached or
    the body is no archive) is given by the environment [net], from the
    number of requests made before and the address. *)

Inductive loader : Type := National | State.

Global Instance loader_eq_dec : EqDecision loader.
Proof. solve_decision. Defined.

Global Instance loader_countable : Countable loader.
Proof.
  refine (inj_countable' (fun k => match k with National => false | State => true end)
            (fun b : bool => if b then State else National) _).
  intros []; reflexivity.
Defined.

Definition names_file (k : loader) : string :=
  match k with
  | National => "https://www.ssa.gov/oact/babynames/names.zip"
  | State => "https://www.ssa.gov/oact/babynames/state/namesbystate.zip"
  end.

Definition from_archive (k : loader) : Archive -> result DataFrame :=
  match k with
  | National => national_from_archive
  | State => state_from_archive
  end.

(** The process: the addresses requested so far, latest first, and the
    entries of [st.cache_data], one per decorated function. *)
Record Process : Type := mkProcess {
  log : list string;
  cache : gmap loader DataFrame
}.

Definition start : Process := mkProcess [] ∅.

(** How many requests went to the address of loader [k]. *)
Definition fetches (k : loader) (p : Process) : nat :=
  length (List.filter (String.eqb (names_file k)) (log p)).

Section Loaders.

Variable net : nat -> string -> result Archive.

(** The undecorated functions [load_national_data] and [load_state_data]:
    one request, then the loop and the concatenation. *)
Definition load (k : loader) (p : Process) : result DataFrame * Process :=
  let response := net (length (log p)) (names_file k) in
  (z ← response; from_archive k z,
   mkProcess (names_file k :: log p) (cache p)).

Definition load_national_data : Process -> result DataFrame * Process :=
  load National.
Definition load_state_data : Process -> result DataFrame * Process :=
  load State.

(** [@st.cache_data]: a stored result is returned without running the
    function; otherwise the function runs and its result is stored when
    it returns, not when it raises. *)
Definition cache_data (k : loader)
    (f : Process -> result DataFrame * Process) (p : Process)
    : result DataFrame * Process :=
  match cache p !! k with
  | Some df => (Ok df, p)
  | None =>
      let '(r, p') := f p in
      match r with
      | Ok df => (Ok df, mkProcess (log p') (<[k := df]> (cache p')))
      | Raise e => (Raise e, p')
      end
  end.

(** A call of a decorated loader. *)
Definition call (k : loader) (p : Process) : result DataFrame * Process :=
  cache_data k (load k) p.

(** A sequence of calls, results dropped. *)
Definition calls (ks : list loader) (p : Process) : Process :=
  foldl (fun p k => snd (call k p)) p ks.

End Loaders.

(** ** The loader of [blog_post_3_streamlit.py] *)

(** [labels.str.contains('^Unnamed')]: the pattern is searched from the
    beginning of each label; the accessor exists for string labels only. *)
Definition contains_Unnamed (l : label) : result bool :=
  match l with
  | LName s => Ok (startswith s "Unnamed")
  | LPos _ => Raise AttributeError
  end.

(** The elements of [l] at the positions where [mask] is true. *)
Definition pick {A} (mask : list bool) (l : list A) : list A :=
  map snd (List.filter fst (combine mask l)).

(** [df.loc[:, mask]]. *)
Definition loc_columns (df : DataFrame) (mask : list bool) : DataFrame :=
  mkFrame (pick mask (columns df)) (map (pick mask) (rows df)).

(** [df[l]], the column under a label; the labels of a table that
    [read_csv] returns are pairwise distinct. *)
Definition getitem (df : DataFrame) (l : label) : result (list value) :=
  match index_of l (columns df) with
  | Some i => Ok (map (fun row => nth i row VNaN) (rows df))
  | None => Raise KeyError
  end.

(** [v != s] for a string [s]: true for every value that is not that string. *)
Definition ne_str (s : string) (v : value) : bool :=
  match v with
  | VStr t => negb (String.eqb t s)
  | _ => true
  end.

(** [df[mask]] for a boolean column [mask]. *)
Definition getitem_mask (df : DataFrame) (mask : list bool) : DataFrame :=
  mkFrame (columns df) (pick mask (rows df)).

(** [load_data]; [fetched] is what [pd.read_csv(url)] returns or raises. *)
Definition load_data (fetched : result DataFrame) : result DataFrame :=
  df ← fetched;
  unnamed ← mapM contains_Unnamed (columns df);
  let df := loc_columns df (map negb unnamed) in
  team ← getitem df (LName "Team");
  let df := getitem_mask df (map (ne_str "2TM") team) in
  Ok df.

(** ** Vocabulary of the properties *)

(** The rows that [concat] makes of tables that all have the same [w]
    columns: the rows of the tables one after the other, each cell in the
    common type of its column. *)
Definition unified_rows (w : nat) (dfs : list DataFrame) : list (list value) :=
  map (zip_with astype (common_types w (map rows dfs))) (flat_map rows dfs).

(** A cell and what it can be in a column of another type: itself, a whole
    number as a float, a boolean as 0 or 1. *)
Inductive retyped : value -> value -> Prop :=
| retyped_same (v : value) : retyped v v
| retyped_int_float (z : Z) : retyped (VInt z) (VFloat (decimal z))
| retyped_bool_int (b : bool) : retyped (VBool b) (VInt (Z.b2z b))
| retyped_bool_float (b : bool) : retyped (VBool b) (VFloat (decimal (Z.b2z b))).

(** The types of the [w] columns of a table, and tables that agree on
    them. *)
Definition dtypes (w : nat) (df : DataFrame) : list dtype :=
  map (fun j => dtype_of (column_cells (rows df) j)) (seq 0 w).

Definition same_types (w : nat) (dfs : list DataFrame) : Prop :=
  forall df df', In df dfs -> In df' dfs -> dtypes w df = dtypes w df'.





(** The file names that pass the test of each loader, in archive order. *)
Definition national_files (z : Archive) : list string :=
  List.filter (fun file => endswith file ".txt") (namelist z).

Definition state_files (z : Archive) : list string :=
  List.filter (fun file => endswith file ".TXT") (namelist z).

(** The columns of the data sets. *)
Definition national_columns : list label :=
  [LName "name"; LName "sex"; LName "count"; LName "year"].

Definition state_columns : list label := map LName state_names.

(** A table is well formed with [w] columns when every row has [w] cells. *)
Definition rows_of_width (w : nat) (df : DataFrame) : Prop :=
  Forall (fun row => length row = w) (rows df).

(** The lines that a loader with [w] column names cannot take: the first
    line has not [w] fields, or some line has more than [w]. *)
Definition rejected_width (w : nat) (lines : list (list string)) : Prop :=
  (exists first rest, lines = first :: rest /\ length first <> w) \/
  Exists (fun line => w < length line) lines.

(** Reading and naming the columns, the part the two loops share. *)
Definition labelled (content : string) (names : list string) : result DataFrame :=
  df ← read_csv content;
  set_columns df names.

(** ** Example data *)

(** A line feed, to write files of several lines. *)
Definition NL : string := String LF EmptyString.

Definition yob1999 : string := "John,M,100" +:+ NL +:+ "Mary,F,90" +:+ NL.
Definition yob2000 : string := "Ann,F,7" +:+ NL.
Definition names_zip : Archive :=
  [("yob1999.txt", yob1999); ("NationalReadMe.pdf", "%PDF"); ("yob2000.txt", yob2000)].

Definition CA_TXT : string := "CA,F,2001,Mary,50" +:+ NL +:+ "CA,M,2001,John,40" +:+ NL.
Definition namesbystate_zip : Archive :=
  [("CA.TXT", CA_TXT); ("StateReadMe.pdf", "%PDF")].

(** A network that serves the two archives of the examples. *)
Definition ssa_gov (n : nat) (url : string) : result Archive :=
  if String.eqb url (names_file National) then Ok names_zip
  else if String.eqb url (names_file State) then Ok namesbystate_zip
  else Raise ConnectionError.

Definition national_data : DataFrame :=
  mkFrame national_columns
    [[VStr "John"; VStr "M"; VInt 100; VInt 1999];
     [VStr "Mary"; VStr "F"; VInt 90; VInt 1999];
     [VStr "Ann"; VStr "F"; VInt 7; VInt 2000]].

(** The process after its first call of the national loader. *)
Definition loaded_once : Process := snd (call ssa_gov National start).

Definition baseball_data : DataFrame :=
  mkFrame [LName "Unnamed: 0"; LName "Player"; LName "Team"; LName "HR"]
    [[VInt 0; VStr "Aaron Judge"; VStr "NYY"; VInt 58];
     [VInt 1; VStr "Jesse Winker"; VStr "2TM"; VInt 14];
     [VInt 2; VStr "Free Agent"; VNaN; VInt 3]].


(** ** The script of [Lab_9.py] around the loaders *)

(** The two calls under [st.spinner]: the national table, then the state
    table; an exception of the first call ends the script before the
    second. *)
Definition startup (net : nat -> string -> result Archive) (p : Process)
    : result (DataFrame * DataFrame) * Process :=
  let '(r1, p1) := call net National p in
  match r1 with
  | Raise e => (Raise e, p1)
  | Ok national_data =>
      let '(r2, p2) := call net State p1 in
      match r2 with
      | Raise e => (Raise e, p2)
      | Ok state_data => (Ok (national_data, state_data), p2)
      end
  end.

(** The list built from the two check boxes. *)
Definition gender_filter (male_selected female_selected : bool) : list string :=
  let gender_filter := [] in
  let gender_filter :=
    if male_selected then gender_filter ++ ["M"] else gender_filter in
  let gender_filter :=
    if female_selected then gender_filter ++ ["F"] else gender_filter in
  gender_filter.

(** [v] of a column [.isin(values)] for a list of strings: true for the
    strings of the list, false for every other value. *)
Definition isin (values : list string) (v : value) : bool :=
  match v with
  | VStr s => existsb (String.eqb s) values
  | _ => false
  end.

(** [name_data[name_data['sex'].isin(gender_filter)]]. *)
Definition select_genders (name_data : DataFrame) (genders : list string)
    : result DataFrame :=
  sex ← getitem name_data (LName "sex");
  Ok (getitem_mask name_data (map (isin genders) sex)).



(** [df.empty]: no row or no column. *)
Definition empty (df : DataFrame) : bool :=
  (length (columns df) =? 0) || (length (rows df) =? 0).

(** What the Name Trends view puts on the page. [NameStatistics] stands
    for the block of metrics of the second column, whose content is not
    modelled. *)
Inductive element : Type :=
| PlotlyChart (data : DataFrame)
| Warning (msg : string)
| NameStatistics (data : DataFrame).

(** How a run of the view ends: the page it made, an exception of a
    library call, or the [NameError] of a variable read before any
    assignment. *)
Inductive run : Type :=
| Page (elements : list element)
| LibraryError (e : exn)
| NameError (variable : string).

(** The second column of the Name Trends view; [name_data] is the
    variable of that name, bound or not. *)
Definition name_trends_col2 (name_data : option DataFrame) (col1 : list element)
    : run :=
  match name_data with
  | None => NameError "name_data"
  | Some name_data =>
      if negb (empty name_data)
      then Page (col1 ++ [NameStatistics name_data])
      else Page col1
  end.

(** The Name Trends view from the test of [input_name] on. [selection] is
    what the selection by name, year range and states returns or raises
    for the chosen scope; [name_data] is assigned under
    [if input_name:] only. *)
Definition name_trends (input_name : string) (selection : result DataFrame)
    (genders : list string) : run :=
  if negb (String.eqb input_name "") then
    match selection with
    | Raise e => LibraryError e
    | Ok name_data =>
        match select_genders name_data genders with
        | Raise e => LibraryError e
        | Ok name_data =>
            if negb (empty name_data)
            then name_trends_col2 (Some name_data) [PlotlyChart name_data]
            else name_trends_col2 (Some name_data)
                   [Warning "No data found for this name in the selected region(s)"]
        end
    end
  else name_trends_col2 None [].


(** The lines of the file that the loader opens under a name. *)
Definition lines_of (z : Archive) (file : string) (lines : list (list string)) : Prop :=
  exists content, zopen z file = Ok content /\ tokenize content = Ok lines.

(** A character of a line that [read_csv] skips: a line end or a blank. *)
Definition skipped_char (c : ascii) : bool :=
  Ascii.eqb c LF || Ascii.eqb c CR || is_blank c.

(** The tokenizer between lines, with no line yet. *)
Definition no_line_yet (p : parser_t) : Prop :=
  (tk_state p = START_RECORD \/ tk_state p = EAT_CRNL_NOP \/
   tk_state p = WHITESPACE_LINE) /\
  tk_line p = [] /\ tk_lines p = [].

(** ** More example data *)

Definition names_by_year : DataFrame :=
  mkFrame national_columns
    [[VStr "John"; VStr "M"; VInt 100; VInt 1999];
     [VStr "Mary"; VStr "F"; VInt 90; VInt 1999];
     [VStr "Sky"; VInt 0; VInt 7; VInt 2000]].

Definition state_table : DataFrame :=
  mkFrame state_columns
    [[VStr "CA"; VStr "F"; VInt 2001; VStr "Mary"; VInt 50];
     [VStr "CA"; VStr "M"; VInt 2001; VStr "John"; VInt 40]].

(** A network that is down. *)
Definition offline (n : nat) (url : string) : result Archive :=
  Raise ConnectionError.

(** A network that serves the national archive only. *)
Definition national_only (n : nat) (url : string) : result Archive :=
  if String.eqb url (names_file National) then Ok names_zip
  else Raise ConnectionError.

(** * Properties *)

(** ** Loops and exceptions *)

Lemma bind_Ok {A B} (r : result A) (k : A -> result B) (b : B) :
  mbind k r = Ok b -> exists a, r = Ok a /\ k a = Ok b.
Proof. destruct r as [a|e]; simpl; [eauto | discriminate]. Qed.

Lemma mapM_Forall2 {A B} (f : A -> result B) (l : list A) (ys : list B) :
  mapM f l = Ok ys <-> Forall2 (fun x y => f x = Ok y) l ys.
Proof.
  revert ys; induction l as [|x l IH]; intros ys; simpl.
  - split.
    + intros [= <-]. constructor.
    + intros H. inversion H. reflexivity.
  - split.
    + intros H. apply bind_Ok in H as (y & Hy & H).
      apply bind_Ok in H as (ys' & Hys & [= <-]).
      constructor; [exact Hy | apply IH, Hys].
    + intros H. inversion H as [|x' y l' ys' Hy Hys]; subst.
      rewrite Hy. simpl. apply IH in Hys. rewrite Hys. reflexivity.
Qed.

Lemma mapM_ext_in {A B} (f g : A -> result B) (l : list A) :
  (forall x, In x l -> f x = g x) -> mapM f l = mapM g l.
Proof.
  induction l as [|x l IH]; intros H; simpl; [reflexivity|].
  rewrite (H x) by (left; reflexivity).
  rewrite IH by (intros y Hy; apply H; right; exact Hy).
  reflexivity.
Qed.

(** An exception in one turn makes the whole loop raise (that exception
    or an earlier one). *)
Lemma mapM_Raise {A B} (f : A -> result B) (l : list A) (x : A) (e : exn) :
  In x l -> f x = Raise e -> exists e', mapM f l = Raise e'.
Proof.
  induction l as [|a l IH]; intros Hin Hx; [destruct Hin|].
  simpl. destruct Hin as [->|Hin].
  - rewrite Hx. simpl. eauto.
  - destruct (f a) as [y|e0]; simpl; [|eauto].
    destruct (IH Hin Hx) as [e' ->]. simpl. eauto.
Qed.

(** The loop of [load_national_data] collects the tables of its files. *)
Lemma national_loop (z : Archive) (files : list string) (acc : list DataFrame) :
  for_loop (national_body z) acc files =
  (dfs ← mapM (national_entry z) files; Ok (acc ++ dfs)).
Proof.
  revert acc; induction files as [|file files IH]; intros acc;
    cbn [for_loop mapM].
  - simpl. rewrite app_nil_r. reflexivity.
  - change (national_body z acc file)
      with (df ← national_entry z file; Ok (acc ++ [df])).
    destruct (national_entry z file) as [df|e]; [|reflexivity].
    cbn [mbind result_bind]. rewrite IH.
    destruct (mapM (national_entry z) files); [|reflexivity].
    cbn [mbind result_bind]. rewrite <- app_assoc. reflexivity.
Qed.

(** The loop of [load_state_data] collects the tables of the names that
    pass the test. *)
Lemma state_loop (z : Archive) (names : list string) (acc : list DataFrame) :
  for_loop (state_body z) acc names =
  (dfs ← mapM (state_entry z)
          (List.filter (fun file => endswith file ".TXT") names);
   Ok (acc ++ dfs)).
Proof.
  revert acc; induction names as [|file names IH]; intros acc;
    cbn [for_loop List.filter].
  - simpl. rewrite app_nil_r. reflexivity.
  - change (state_body z acc file)
      with (if endswith file ".TXT"
            then df ← state_entry z file; Ok (acc ++ [df])
            else Ok acc).
    destruct (endswith file ".TXT").
    + cbn [mapM].
      destruct (state_entry z file) as [df|e]; [|reflexivity].
      cbn [mbind result_bind]. rewrite IH.
      destruct (mapM (state_entry z) _); [|reflexivity].
      cbn [mbind result_bind]. rewrite <- app_assoc. reflexivity.
    + cbn [mbind result_bind]. apply IH.
Qed.

Lemma national_from_archive_eq (z : Archive) :
  national_from_archive z =
  (dfs ← mapM (national_entry z) (national_files z); concat dfs).
Proof.
  unfold national_from_archive. rewrite national_loop.
  fold (national_files z).
  destruct (mapM (national_entry z) (national_files z)); reflexivity.
Qed.

Lemma state_from_archive_eq (z : Archive) :
  state_from_archive z =
  (dfs ← mapM (state_entry z) (state_files z); concat dfs).
Proof.
  unfold state_from_archive. rewrite state_loop.
  fold (state_files z).
  destruct (mapM (state_entry z) (state_files z)); reflexivity.
Qed.

(** ** Shape of the tables *)

Lemma pad_length (w : nat) (line : list string) :
  length line <= w -> length (pad w line) = w.
Proof.
  intros H. unfold pad. rewrite length_app, length_replicate. lia.
Qed.

Lemma existsb_false_Forall {A} (p : A -> bool) (l : list A) :
  existsb p l = false -> Forall (fun x => p x = false) l.
Proof.
  induction l as [|x l IH]; simpl; intros H; constructor.
  - destruct (p x); [discriminate | reflexivity].
  - apply IH. destruct (p x); [discriminate | exact H].
Qed.

Lemma table_rows_width (w : nat) (kinds : list kind) (lines : list (list string)) :
  length kinds = w ->
  Forall (fun line => length line <= w) lines ->
  Forall (fun row : list value => length row = w)
    (map (zip_with convert kinds) (map (pad w) lines)).
Proof.
  intros Hk Hall. apply Forall_map, Forall_map.
  eapply Forall_impl; [|exact Hall].
  intros line Hl. cbn beta.
  rewrite length_zip_with, pad_length by exact Hl. lia.
Qed.

(** What [read_csv] returns has as many columns as the first line has
    fields, labelled by position, one row per line, and no line had more
    fields than the first. *)
Lemma frame_of_lines_Ok (lines : list (list string)) (df : DataFrame) :
  frame_of_lines lines = Ok df ->
  exists first rest,
    lines = first :: rest /\
    columns df = map LPos (seq 0 (length first)) /\
    rows_of_width (length first) df /\
    nrows df = length lines /\
    Forall (fun line => length line <= length first) rest.
Proof.
  destruct lines as [|first rest]; [discriminate|].
  unfold frame_of_lines.
  destruct (existsb _ rest) eqn:Hlong; [discriminate|].
  intros H. exists first, rest.
  apply existsb_false_Forall in Hlong.
  assert (Hrest : Forall (fun line => length line <= length first) rest).
  { eapply Forall_impl; [|exact Hlong].
    intros line Hl. apply Nat.ltb_ge in Hl. exact Hl. }
  injection H as <-.
  split; [reflexivity|]. split; [reflexivity|]. split; [|split].
  - apply (table_rows_width (length first) _ (first :: rest)).
    + rewrite length_map, length_seq. reflexivity.
    + constructor; [lia | exact Hrest].
  - unfold nrows. cbn [rows].
    change (length (map (zip_with convert
                      (map (fun i => infer (column_tokens
                              (map (pad (length first)) (first :: rest)) i))
                           (seq 0 (length first))))
                      (map (pad (length first)) (first :: rest)))
            = length (first :: rest)).
    rewrite !length_map. reflexivity.
  - exact Hrest.
Qed.

Lemma read_csv_Ok (content : string) (df : DataFrame) :
  read_csv content = Ok df ->
  exists first rest,
    tokenize content = Ok (first :: rest) /\
    columns df = map LPos (seq 0 (length first)) /\
    rows_of_width (length first) df /\
    nrows df = S (length rest) /\
    Forall (fun line => length line <= length first) rest.
Proof.
  unfold read_csv. intros H. apply bind_Ok in H as (lines & Htok & H).
  apply frame_of_lines_Ok in H as (first & rest & -> & Hc & Hr & Hn & Hl).
  exists first, rest. auto.
Qed.

Lemma set_columns_Ok (df df' : DataFrame) (names : list string) :
  set_columns df names = Ok df' ->
  length (columns df) = length names /\
  columns df' = map LName names /\ rows df' = rows df.
Proof.
  unfold set_columns.
  destruct (length (columns df) =? length names) eqn:E; [|discriminate].
  apply Nat.eqb_eq in E. intros [= <-]. auto.
Qed.

Lemma set_columns_Raise (df : DataFrame) (names : list string) :
  length (columns df) <> length names -> set_columns df names = Raise ValueError.
Proof.
  intros H. unfold set_columns.
  destruct (length (columns df) =? length names) eqn:E; [|reflexivity].
  apply Nat.eqb_eq in E. contradiction.
Qed.

(** Every table of the national loop has the four columns and rows of
    four cells, the last being the year of the file name. *)
Lemma national_entry_Ok (z : Archive) (file : string) (df : DataFrame) :
  national_entry z file = Ok df ->
  exists content df0 year,
    zopen z file = Ok content /\
    read_csv content = Ok df0 /\
    length (columns df0) = 3 /\
    py_int (slice file 3 7) = Ok year /\
    columns df = national_columns /\
    rows df = map (fun row => row ++ [VInt year]) (rows df0) /\
    rows_of_width 4 df.
Proof.
  unfold national_entry. intros H.
  apply bind_Ok in H as (content & Hopen & H).
  apply bind_Ok in H as (df0 & Hread & H).
  apply bind_Ok in H as (df1 & Hset & H).
  apply bind_Ok in H as (year & Hyear & [= <-]).
  apply set_columns_Ok in Hset as (Hlen & Hcols & Hrows).
  exists content, df0, year.
  assert (Hdf : setitem df1 (LName "year") (VInt year) =
                mkFrame national_columns
                  (map (fun row => row ++ [VInt year]) (rows df0))).
  { unfold setitem. rewrite Hcols, Hrows. reflexivity. }
  rewrite Hdf. repeat split; try assumption.
  apply read_csv_Ok in Hread as (first & rest & _ & Hc & Hw & _).
  rewrite Hc, length_map, length_seq in Hlen.
  unfold rows_of_width in *. cbn [rows]. apply Forall_map.
  eapply Forall_impl; [|exact Hw].
  intros row Hr. cbn beta. rewrite length_app, Hr, Hlen. reflexivity.
Qed.

Lemma state_entry_Ok (z : Archive) (file : string) (df : DataFrame) :
  state_entry z file = Ok df ->
  exists content df0,
    zopen z file = Ok content /\
    read_csv content = Ok df0 /\
    length (columns df0) = 5 /\
    columns df = state_columns /\
    rows df = rows df0 /\
    rows_of_width 5 df.
Proof.
  unfold state_entry. intros H.
  apply bind_Ok in H as (content & Hopen & H).
  apply bind_Ok in H as (df0 & Hread & Hset).
  apply set_columns_Ok in Hset as (Hlen & Hcols & Hrows).
  exists content, df0. repeat split; try assumption.
  apply read_csv_Ok in Hread as (first & rest & _ & Hc & Hw & _).
  rewrite Hc, length_map, length_seq in Hlen.
  unfold rows_of_width in *. rewrite Hrows.
  change 5 with (length state_names). rewrite <- Hlen. exact Hw.
Qed.

(** ** Concatenation of tables with the same columns *)

Lemma filter_known (cols l : list label) :
  (forall x, In x l -> In x cols) ->
  List.filter (fun x => negb (bool_decide (x ∈ cols))) l = [].
Proof.
  induction l as [|x l IH]; intros H; cbn [List.filter]; [reflexivity|].
  rewrite bool_decide_eq_true_2.
  - cbn [negb]. apply IH. intros y Hy. apply H. right. exact Hy.
  - apply list_elem_of_In, H. left. reflexivity.
Qed.

Lemma filter_fresh (l : list label) :
  List.filter (fun x => negb (bool_decide (x ∈ @nil label))) l = l.
Proof.
  induction l as [|x l IH]; cbn [List.filter]; [reflexivity|].
  rewrite bool_decide_eq_false_2 by (apply not_elem_of_nil).
  cbn [negb]. rewrite IH. reflexivity.
Qed.

Lemma union_labels_same (cols : list label) (dfs : list DataFrame) :
  dfs <> [] ->
  Forall (fun df => columns df = cols) dfs ->
  union_labels dfs = cols.
Proof.
  intros Hne Hall. unfold union_labels.
  destruct dfs as [|df dfs]; [contradiction|].
  inversion Hall as [|? ? Hdf Hdfs]; subst.
  cbn [foldl app]. rewrite filter_fresh.
  clear Hall Hne. induction dfs as [|df' dfs IH]; [reflexivity|].
  inversion Hdfs as [|? ? Hdf' Hdfs']; subst.
  cbn [foldl]. rewrite Hdf'.
  rewrite filter_known by auto. rewrite app_nil_r.
  apply IH. exact Hdfs'.
Qed.

Lemma cell_of_skip (c : label) (cs : list label) (v : value) (vs : list value)
    (dst : list label) :
  ~ In c dst ->
  map (cell_of (c :: cs) (v :: vs)) dst = map (cell_of cs vs) dst.
Proof.
  intros Hnot. apply map_ext_in. intros l Hl. cbn [cell_of].
  destruct (decide (c = l)) as [->|]; [contradiction | reflexivity].
Qed.

(** Under the same pairwise distinct labels a row is left as it is. *)
Lemma reindex_same (cols : list label) (row : list value) :
  List.NoDup cols -> length row = length cols -> reindex cols cols row = row.
Proof.
  unfold reindex. intros Hnd. revert row.
  induction Hnd as [|c cs Hc Hnd IH]; intros row Hlen.
  - destruct row; [reflexivity | discriminate].
  - destruct row as [|v vs]; [discriminate|].
    cbn [map]. rewrite cell_of_skip by exact Hc.
    cbn [cell_of]. rewrite decide_True by reflexivity.
    f_equal. apply IH. simpl in Hlen. lia.
Qed.

Lemma blocks_same (cols : list label) (dfs : list DataFrame) :
  List.NoDup cols ->
  Forall (fun df => columns df = cols /\ rows_of_width (length cols) df) dfs ->
  blocks_of cols dfs = map rows dfs.
Proof.
  intros Hnd Hall. unfold blocks_of.
  induction Hall as [|df dfs [Hc Hw] Hall IH]; [reflexivity|].
  cbn [map]. rewrite IH. f_equal.
  rewrite Hc. unfold rows_of_width in Hw.
  induction Hw as [|row rs Hrow Hw IHw]; [reflexivity|].
  cbn [map]. rewrite reindex_same by assumption. f_equal. exact IHw.
Qed.

Lemma flat_map_map_blocks {A B} (f : A -> B) (blocks : list (list A)) :
  flat_map (map f) blocks = map f (List.concat blocks).
Proof.
  induction blocks as [|b blocks IH]; [reflexivity|].
  cbn [flat_map List.concat]. rewrite map_app, IH. reflexivity.
Qed.

Lemma concat_map_rows (dfs : list DataFrame) :
  List.concat (map rows dfs) = flat_map rows dfs.
Proof.
  induction dfs as [|df dfs IH]; [reflexivity|].
  cbn [map List.concat flat_map]. rewrite IH. reflexivity.
Qed.

Lemma cell_of_nth (cols : list label) (row : list value) (j : nat) (d : label) :
  List.NoDup cols -> length row = length cols -> j < length cols ->
  cell_of cols row (nth j cols d) = nth j row VNaN.
Proof.
  intros Hnd. revert row j.
  induction Hnd as [|c cs Hc Hnd IH]; intros row j Hlen Hj; [simpl in Hj; lia|].
  destruct row as [|v vs]; [discriminate|].
  destruct j as [|j]; cbn [nth cell_of].
  - rewrite decide_True by reflexivity. reflexivity.
  - simpl in Hlen, Hj. rewrite decide_False.
    + apply IH; lia.
    + intros ->. apply Hc. apply nth_In. lia.
Qed.

Lemma map_nth_seq {A B} (f : A -> B) (l : list A) (d : A) :
  map f l = map (fun j => f (nth j l d)) (seq 0 (length l)).
Proof.
  induction l as [|x l IH]; [reflexivity|].
  cbn [length seq map nth]. f_equal.
  rewrite <- seq_shift, map_map. exact IH.
Qed.

Lemma forallb_all {A} (f : A -> bool) (l : list A) :
  Forall (fun x => f x = true) l -> forallb f l = true.
Proof. intros H. apply forallb_forall. rewrite Forall_forall in H. exact H. Qed.

Lemma filter_all {A} (f : A -> bool) (l : list A) :
  Forall (fun x => f x = true) l -> List.filter f l = l.
Proof.
  induction 1 as [|x l Hx _ IH]; [reflexivity|].
  cbn [List.filter]. rewrite Hx, IH. reflexivity.
Qed.

(** Frames with the same columns: every column is the common type of its
    pieces. *)
Lemma column_types_same (cols : list label) (dfs : list DataFrame) :
  List.NoDup cols ->
  Forall (fun df => columns df = cols /\ rows_of_width (length cols) df) dfs ->
  map (column_type dfs) cols = common_types (length cols) (map rows dfs).
Proof.
  intros Hnd Hall. rewrite (map_nth_seq _ cols (LPos 0)). unfold common_types.
  apply map_ext_in. intros j Hj. apply in_seq in Hj.
  assert (Hhas : Forall (fun df => has_label (nth j cols (LPos 0)) df = true) dfs).
  { eapply Forall_impl; [|exact Hall]. intros df [Hc _]. unfold has_label.
    apply bool_decide_eq_true_2. rewrite Hc. apply list_elem_of_In, nth_In. lia. }
  unfold column_type. rewrite (forallb_all _ dfs Hhas), (filter_all _ dfs Hhas).
  f_equal. rewrite map_map. apply map_ext_in. intros df Hdf.
  rewrite Forall_forall in Hall. destruct (Hall df Hdf) as [Hc Hw].
  f_equal. unfold column_cells. apply map_ext_in. intros row Hrow.
  rewrite Hc. apply cell_of_nth; [exact Hnd | | lia].
  unfold rows_of_width in Hw. rewrite Forall_forall in Hw. apply Hw, Hrow.
Qed.

Lemma concat_same (cols : list label) (dfs : list DataFrame) :
  List.NoDup cols -> dfs <> [] ->
  Forall (fun df => columns df = cols /\ rows_of_width (length cols) df) dfs ->
  concat dfs = Ok (mkFrame cols (unified_rows (length cols) dfs)).
Proof.
  intros Hnd Hne Hall.
  assert (Hcols : union_labels dfs = cols).
  { apply union_labels_same; [exact Hne|].
    eapply Forall_impl; [|exact Hall]. intros df [H _]. exact H. }
  unfold concat. destruct dfs as [|df0 dfs0] eqn:E; [contradiction|].
  rewrite <- E in *. rewrite Hcols, (blocks_same cols dfs Hnd Hall).
  rewrite (column_types_same cols dfs Hnd Hall).
  rewrite flat_map_map_blocks, concat_map_rows. reflexivity.
Qed.

(** *** The rows of the assembled table *)

Lemma common_types_length (w : nat) (blocks : list (list (list value))) :
  length (common_types w blocks) = w.
Proof. unfold common_types. rewrite length_map, length_seq. reflexivity. Qed.

Lemma unified_rows_length (w : nat) (dfs : list DataFrame) :
  length (unified_rows w dfs) = length (flat_map rows dfs).
Proof. unfold unified_rows. apply length_map. Qed.

Lemma flat_map_rows_Forall (P : list value -> Prop) (dfs : list DataFrame) :
  Forall (fun df => Forall P (rows df)) dfs -> Forall P (flat_map rows dfs).
Proof.
  induction 1 as [|df dfs Hdf _ IH]; cbn [flat_map]; [constructor|].
  apply Forall_app. split; assumption.
Qed.

Lemma unified_rows_width (w : nat) (dfs : list DataFrame) :
  Forall (fun df => rows_of_width w df) dfs ->
  Forall (fun row : list value => length row = w) (unified_rows w dfs).
Proof.
  intros Hall. unfold unified_rows. apply Forall_map.
  eapply Forall_impl; [|apply (flat_map_rows_Forall _ dfs Hall)].
  intros row Hrow. cbn beta in *.
  rewrite length_zip_with, common_types_length, Hrow. lia.
Qed.

Lemma astype_retyped (d : dtype) (v : value) : retyped v (astype d v).
Proof. destruct d, v; cbn; constructor. Qed.

Lemma zip_astype_retyped (types : list dtype) (row : list value) :
  length types = length row ->
  Forall2 retyped row (zip_with astype types row).
Proof.
  revert row. induction types as [|d types IH]; intros [|v row] Hlen;
    try discriminate; cbn [zip_with]; constructor.
  - apply astype_retyped.
  - apply IH. simpl in Hlen. lia.
Qed.


Lemma existsb_const {A} (p : A -> bool) (a : A) (l : list A) :
  l <> [] -> Forall (fun x => x = a) l -> existsb p l = p a.
Proof.
  intros Hne Hall. induction Hall as [|x l Hx Hl IH]; [contradiction|].
  subst x. cbn [existsb]. destruct l as [|y l].
  - apply orb_false_r.
  - rewrite IH by discriminate. destruct (p a); reflexivity.
Qed.

Lemma result_type_const (d : dtype) (ds : list dtype) :
  ds <> [] -> Forall (fun d' => d' = d) ds -> result_type ds = d.
Proof.
  intros Hne Hall. unfold result_type.
  rewrite !(existsb_const _ d ds Hne Hall). destruct d; reflexivity.
Qed.

Lemma nth_map_seq {A} (g : nat -> A) (w j : nat) (d : A) :
  j < w -> nth j (map g (seq 0 w)) d = g j.
Proof.
  intros Hj. rewrite (nth_indep _ d (g 0)) by (rewrite length_map, length_seq; exact Hj).
  rewrite (map_nth g (seq 0 w) 0 j). rewrite seq_nth by exact Hj. reflexivity.
Qed.

Lemma nth_zip_with {A B C} (f : A -> B -> C) (l : list A) (k : list B)
    (j : nat) (a : A) (b : B) (c : C) :
  j < length l -> j < length k ->
  nth j (zip_with f l k) c = f (nth j l a) (nth j k b).
Proof.
  revert k j. induction l as [|x l IH]; intros [|y k] [|j] Hl Hk;
    simpl in *; try lia; [reflexivity|].
  apply IH; lia.
Qed.

(** A column that holds whole numbers in every table holds the same whole
    numbers in the assembled table. *)
Lemma unified_rows_int_column (w j : nat) (dfs : list DataFrame) (row : list value) :
  j < w -> dfs <> [] ->
  Forall (fun df => rows_of_width w df) dfs ->
  Forall (fun df => dtype_of (column_cells (rows df) j) = DInt64) dfs ->
  In row (flat_map rows dfs) ->
  is_VInt (nth j row VNaN) = true ->
  nth j (zip_with astype (common_types w (map rows dfs)) row) VNaN = nth j row VNaN.
Proof.
  intros Hj Hne Hw Hint Hin Hcell.
  assert (Hrow : length row = w).
  { pose proof (flat_map_rows_Forall _ dfs Hw) as H. cbn beta in H.
    rewrite Forall_forall in H. apply H, Hin. }
  rewrite (nth_zip_with astype _ row j DObject VNaN)
    by (rewrite ?common_types_length; lia).
  unfold common_types. rewrite nth_map_seq by exact Hj.
  rewrite (result_type_const DInt64).
  - destruct (nth j row VNaN); try discriminate. reflexivity.
  - destruct dfs; [contradiction | discriminate].
  - rewrite map_map. apply Forall_map. exact Hint.
Qed.

Lemma astype_own (cells : list value) (v : value) :
  In v cells -> astype (dtype_of cells) v = v.
Proof.
  intros Hin. unfold dtype_of. destruct cells as [|c cells]; [destruct Hin|].
  destruct (forallb is_int64 (c :: cells)) eqn:Ei.
  { rewrite forallb_forall in Ei. specialize (Ei v Hin).
    destruct v; try discriminate. reflexivity. }
  destruct (forallb is_uint64 (c :: cells)) eqn:Eu.
  { rewrite forallb_forall in Eu. specialize (Eu v Hin).
    destruct v; try discriminate. reflexivity. }
  destruct (forallb is_VFloat (c :: cells)) eqn:Ef.
  { rewrite forallb_forall in Ef. specialize (Ef v Hin).
    destruct v; try discriminate; reflexivity. }
  destruct (forallb is_VBool (c :: cells)) eqn:Eb.
  { rewrite forallb_forall in Eb. specialize (Eb v Hin).
    destruct v; try discriminate. reflexivity. }
  destruct v; reflexivity.
Qed.

Lemma zip_astype_id (g : nat -> dtype) (n a : nat) (row : list value) :
  length row = n ->
  (forall i, i < n -> astype (g (a + i)) (nth i row VNaN) = nth i row VNaN) ->
  zip_with astype (map g (seq a n)) row = row.
Proof.
  revert a row. induction n as [|n IH]; intros a [|v row] Hlen Hcells;
    try discriminate; [reflexivity|].
  cbn [seq map zip_with]. f_equal.
  - specialize (Hcells 0 ltac:(lia)). rewrite Nat.add_0_r in Hcells. exact Hcells.
  - apply IH; [simpl in Hlen; lia|].
    intros i Hi. specialize (Hcells (S i) ltac:(lia)).
    rewrite Nat.add_succ_r in Hcells. exact Hcells.
Qed.

Lemma zip_astype_own (w : nat) (df : DataFrame) (row : list value) :
  length row = w -> In row (rows df) ->
  zip_with astype (dtypes w df) row = row.
Proof.
  intros Hlen Hin. unfold dtypes. apply zip_astype_id; [exact Hlen|].
  intros i _. cbn [Nat.add]. apply astype_own.
  unfold column_cells. apply in_map_iff. exists row. auto.
Qed.

Lemma common_types_same (w : nat) (dfs : list DataFrame) (df : DataFrame) :
  same_types w dfs -> In df dfs ->
  common_types w (map rows dfs) = dtypes w df.
Proof.
  intros Hsame Hin. unfold common_types, dtypes.
  apply map_ext_in. intros j Hj. apply in_seq in Hj.
  apply result_type_const.
  - destruct dfs; [destruct Hin | discriminate].
  - rewrite map_map. apply Forall_map, Forall_forall. intros df' Hin'.
    pose proof (Hsame df' df Hin' Hin) as Heq. unfold dtypes in Heq.
    pose proof (f_equal (fun l => nth j l DObject) Heq) as Hnth. cbn beta in Hnth.
    rewrite !nth_map_seq in Hnth by lia. exact Hnth.
Qed.

(** Tables that agree on the types of their columns are assembled cell for
    cell. *)
Lemma unified_rows_same_types (w : nat) (dfs : list DataFrame) :
  Forall (fun df => rows_of_width w df) dfs ->
  same_types w dfs ->
  unified_rows w dfs = flat_map rows dfs.
Proof.
  intros Hw Hsame. unfold unified_rows.
  rewrite <- (map_id (flat_map rows dfs)) at 2.
  apply map_ext_in. intros row Hin.
  apply in_flat_map in Hin as (df & Hdf & Hrow).
  rewrite (common_types_same w dfs df Hsame Hdf).
  apply zip_astype_own; [|exact Hrow].
  rewrite Forall_forall in Hw. specialize (Hw df Hdf).
  unfold rows_of_width in Hw. rewrite Forall_forall in Hw. apply Hw, Hrow.
Qed.

(** A single table is assembled as itself. *)
Lemma concat_single (df : DataFrame) :
  List.NoDup (columns df) ->
  rows_of_width (length (columns df)) df ->
  concat [df] = Ok df.
Proof.
  intros Hnd Hw.
  assert (Hall : Forall (fun df' => rows_of_width (length (columns df)) df') [df])
    by (constructor; [exact Hw | constructor]).
  rewrite (concat_same (columns df) [df] Hnd); [|discriminate|].
  - rewrite (unified_rows_same_types _ [df] Hall).
    + destruct df as [cols rs]. cbn [flat_map rows columns].
      rewrite app_nil_r. reflexivity.
    + intros df1 df2 [<-|[]] [<-|[]]. reflexivity.
  - constructor; [split; [reflexivity | exact Hw] | constructor].
Qed.


Lemma national_columns_NoDup : List.NoDup national_columns.
Proof.
  unfold national_columns.
  repeat (constructor; [simpl; intuition discriminate|]).
  constructor.
Qed.

Lemma state_columns_NoDup : List.NoDup state_columns.
Proof.
  unfold state_columns, state_names. cbn [map].
  repeat (constructor; [simpl; intuition discriminate|]).
  constructor.
Qed.

(** ** Members found by name *)

Lemma NameToInfo_from (d d' : gmap string string) (z : Archive) (name : string) :
  d !! name = d' !! name ->
  foldl (fun d member => <[fst member := snd member]> d) d z !! name =
  foldl (fun d member => <[fst member := snd member]> d) d' z !! name.
Proof.
  revert d d'. induction z as [|[n c] z IH]; intros d d' H; [exact H|].
  cbn [foldl fst snd]. apply IH.
  destruct (decide (n = name)) as [->|Hne].
  - rewrite !lookup_insert_eq. reflexivity.
  - rewrite !lookup_insert_ne by exact Hne. exact H.
Qed.

(** A member with another name does not change what [open] finds. *)
Lemma zopen_other (z1 z2 : Archive) (member : string * string) (name : string) :
  fst member <> name ->
  zopen (z1 ++ member :: z2) name = zopen (z1 ++ z2) name.
Proof.
  intros Hne. unfold zopen, NameToInfo.
  rewrite !foldl_app. cbn [foldl].
  rewrite (NameToInfo_from _ (foldl (fun d m => <[fst m := snd m]> d) ∅ z1) z2 name).
  - reflexivity.
  - apply lookup_insert_ne. exact Hne.
Qed.

Lemma NameToInfo_shadowed (d d' : gmap string string) (z : Archive) (name : string) :
  In name (namelist z) ->
  foldl (fun d member => <[fst member := snd member]> d) d z !! name =
  foldl (fun d member => <[fst member := snd member]> d) d' z !! name.
Proof.
  revert d d'. induction z as [|[n c] z IH]; intros d d' Hin; [destruct Hin|].
  cbn [foldl fst snd].
  destruct (in_dec string_dec name (namelist z)) as [Hlater|Hlast].
  - apply IH, Hlater.
  - destruct Hin as [Hn|Hin]; [|contradiction]. cbn [fst] in Hn. subst n.
    apply NameToInfo_from. rewrite !lookup_insert_eq. reflexivity.
Qed.




Lemma zopen_single (file content : string) :
  zopen [(file, content)] file = Ok content.
Proof.
  unfold zopen, NameToInfo. cbn [foldl fst snd].
  rewrite lookup_insert_eq. reflexivity.
Qed.

Lemma filter_skip {A} (p : A -> bool) (l1 l2 : list A) (x : A) :
  p x = false -> List.filter p (l1 ++ x :: l2) = List.filter p (l1 ++ l2).
Proof.
  intros H. rewrite !List.filter_app. cbn [List.filter]. rewrite H. reflexivity.
Qed.

(** ** The claims *)

Example read_csv_John :
  read_csv "John,M,100" =
  Ok (mkFrame [LPos 0; LPos 1; LPos 2] [[VStr "John"; VStr "M"; VInt 100]]).
Proof. vm_compute. reflexivity. Qed.

(** C1. National pipeline: an archive whose only member is a file named
    [file], ending in [.txt], with the single line [John,M,100] and no
    header, gives exactly the record name John, sex M, count 100 and the
    year that [int] reads in the characters 3 to 6 of [file]; name, sex
    and count are the fields of the line by position. For [abc1999.txt]
    the characters are [1999] and the year is 1999. *)
Theorem C1_national_record (file : string) (year : Z) :
  endswith file ".txt" = true ->
  py_int (slice file 3 7) = Ok year ->
  national_from_archive [(file, "John,M,100")] =
  Ok (mkFrame [LName "name"; LName "sex"; LName "count"; LName "year"]
        [[VStr "John"; VStr "M"; VInt 100; VInt year]]).
Proof.
  intros Hsuffix Hyear. rewrite national_from_archive_eq.
  unfold national_files, namelist. cbn [map fst List.filter].
  rewrite Hsuffix. cbn [mapM]. unfold national_entry.
  rewrite zopen_single. cbn [mbind result_bind].
  rewrite read_csv_John. cbn [mbind result_bind].
  change (set_columns _ national_names)
    with (Ok (mkFrame (map LName national_names)
                [[VStr "John"; VStr "M"; VInt 100]])).
  cbn [mbind result_bind]. rewrite Hyear. cbn [mbind result_bind].
  change (setitem _ (LName "year") (VInt year))
    with (mkFrame [LName "name"; LName "sex"; LName "count"; LName "year"]
            [[VStr "John"; VStr "M"; VInt 100; VInt year]]).
  apply concat_single.
  - apply national_columns_NoDup.
  - repeat constructor.
Qed.

Lemma C1_national_record_witness :
  slice "abc1999.txt" 3 7 = "1999" /\
  national_from_archive [("abc1999.txt", "John,M,100")] =
  Ok (mkFrame [LName "name"; LName "sex"; LName "count"; LName "year"]
        [[VStr "John"; VStr "M"; VInt 100; VInt 1999]]).
Proof.
  split; [reflexivity|].
  apply (C1_national_record "abc1999.txt" 1999); reflexivity.
Defined.

Lemma entries_same_shape (cols : list label) (w : nat) {A}
    (entry : A -> result DataFrame) (files : list A) (dfs : list DataFrame) :
  (forall file df, entry file = Ok df -> columns df = cols /\ rows_of_width w df) ->
  Forall2 (fun file df => entry file = Ok df) files dfs ->
  Forall (fun df => columns df = cols /\ rows_of_width w df) dfs.
Proof.
  intros Hshape H. induction H as [|file df files dfs Hdf _ IH]; constructor.
  - exact (Hshape file df Hdf).
  - exact IH.
Qed.

(** Both loaders, once every turn of the loop has given its table. *)
Lemma assemble_tables (cols : list label) {A}
    (entry : A -> result DataFrame) (files : list A) (dfs : list DataFrame) :
  List.NoDup cols ->
  (forall file df, entry file = Ok df ->
     columns df = cols /\ rows_of_width (length cols) df) ->
  Forall2 (fun file df => entry file = Ok df) files dfs ->
  let assembled := dfs' ← mapM entry files; concat dfs' in
  (files <> [] ->
   assembled = Ok (mkFrame cols (unified_rows (length cols) dfs))) /\
  (forall data, assembled = Ok data ->
     data = mkFrame cols (unified_rows (length cols) dfs)).
Proof.
  intros Hnd Hshape Hall assembled.
  assert (Hmap : mapM entry files = Ok dfs) by (apply mapM_Forall2, Hall).
  assert (Hasm : assembled = concat dfs).
  { unfold assembled. rewrite Hmap. reflexivity. }
  assert (Hgood : dfs <> [] ->
            concat dfs = Ok (mkFrame cols (unified_rows (length cols) dfs))).
  { intros Hne. apply concat_same; [exact Hnd | exact Hne |].
    eapply entries_same_shape; eassumption. }
  split.
  - intros Hne. rewrite Hasm. apply Hgood.
    intros ->. inversion Hall. subst. contradiction.
  - intros data Hdata. rewrite Hasm in Hdata.
    destruct dfs as [|df dfs']; [discriminate|].
    rewrite Hgood in Hdata by discriminate. congruence.
Qed.



(** *** Entries and the files opened under their names *)






Lemma national_entry_shape (z : Archive) (file : string) (df : DataFrame) :
  national_entry z file = Ok df ->
  columns df = national_columns /\ rows_of_width (length national_columns) df.
Proof.
  intros H.
  apply national_entry_Ok in H as (_ & _ & _ & _ & _ & _ & _ & Hc & _ & Hw).
  split; [exact Hc | exact Hw].
Qed.

Lemma state_entry_shape (z : Archive) (file : string) (df : DataFrame) :
  state_entry z file = Ok df ->
  columns df = state_columns /\ rows_of_width (length state_columns) df.
Proof.
  intros H. apply state_entry_Ok in H as (_ & _ & _ & _ & _ & Hc & _ & Hw).
  split; [exact Hc | exact Hw].
Qed.




(** C4. A member whose name does not end in the suffix of the loader
    ([.txt] national, [.TXT] state, capitals and small letters distinct)
    is passed over: with it or without it the loader returns the same
    data set or raises the same exception, so it gives no row and no
    error. *)
Theorem C4_other_names_skipped (z1 z2 : Archive) (member : string * string) :
  (endswith (fst member) ".txt" = false ->
   national_from_archive (z1 ++ member :: z2) = national_from_archive (z1 ++ z2)) /\
  (endswith (fst member) ".TXT" = false ->
   state_from_archive (z1 ++ member :: z2) = state_from_archive (z1 ++ z2)).
Proof.
  split; intros Hskip.
  - rewrite !national_from_archive_eq.
    assert (Hfiles : national_files (z1 ++ member :: z2) = national_files (z1 ++ z2)).
    { unfold national_files, namelist. rewrite !map_app. cbn [map].
      apply filter_skip. exact Hskip. }
    rewrite Hfiles.
    rewrite (mapM_ext_in (national_entry (z1 ++ member :: z2))
               (national_entry (z1 ++ z2))); [reflexivity|].
    intros file Hin. apply List.filter_In in Hin as [_ Hfile].
    unfold national_entry. rewrite zopen_other; [reflexivity|].
    intros Heq. rewrite Heq in Hskip. congruence.
  - rewrite !state_from_archive_eq.
    assert (Hfiles : state_files (z1 ++ member :: z2) = state_files (z1 ++ z2)).
    { unfold state_files, namelist. rewrite !map_app. cbn [map].
      apply filter_skip. exact Hskip. }
    rewrite Hfiles.
    rewrite (mapM_ext_in (state_entry (z1 ++ member :: z2))
               (state_entry (z1 ++ z2))); [reflexivity|].
    intros file Hin. apply List.filter_In in Hin as [_ Hfile].
    unfold state_entry. rewrite zopen_other; [reflexivity|].
    intros Heq. rewrite Heq in Hskip. congruence.
Qed.

(** An archive of one file that passes the test and one that does not
    gives the rows of the first only. *)
Lemma C4_other_names_skipped_witness :
  (national_from_archive [("yob2000.txt", yob2000); ("yob2000.TXT", yob1999)] =
   national_from_archive [("yob2000.txt", yob2000)] /\
   national_from_archive [("yob2000.txt", yob2000)] =
   Ok (mkFrame national_columns [[VStr "Ann"; VStr "F"; VInt 7; VInt 2000]])) /\
  (state_from_archive [("CA.txt", CA_TXT); ("CA.TXT", CA_TXT)] =
   state_from_archive [("CA.TXT", CA_TXT)] /\
   state_from_archive [("CA.TXT", CA_TXT)] =
   Ok (mkFrame state_columns
         [[VStr "CA"; VStr "F"; VInt 2001; VStr "Mary"; VInt 50];
          [VStr "CA"; VStr "M"; VInt 2001; VStr "John"; VInt 40]])).
Proof.
  split; split.
  - apply (proj1 (C4_other_names_skipped [("yob2000.txt", yob2000)] []
                    ("yob2000.TXT", yob1999))).
    reflexivity.
  - vm_compute. reflexivity.
  - apply (proj2 (C4_other_names_skipped [] [("CA.TXT", CA_TXT)]
                    ("CA.txt", CA_TXT))).
    reflexivity.
  - vm_compute. reflexivity.
Defined.

(** C9. An archive in which no name passes the test does not give an
    empty data set: the list handed to [concat] is empty and [concat]
    raises [ValueError], so the loader raises. *)
Theorem C9_no_file_raises (z : Archive) :
  (national_files z = [] -> national_from_archive z = Raise ValueError) /\
  (state_files z = [] -> state_from_archive z = Raise ValueError).
Proof.
  split; intros Hnone.
  - rewrite national_from_archive_eq, Hnone. reflexivity.
  - rewrite state_from_archive_eq, Hnone. reflexivity.
Qed.

Lemma C9_no_file_raises_witness :
  national_from_archive [("NationalReadMe.pdf", "%PDF")] = Raise ValueError /\
  state_from_archive [("ca.txt", CA_TXT)] = Raise ValueError.
Proof.
  split.
  - apply (proj1 (C9_no_file_raises [("NationalReadMe.pdf", "%PDF")])).
    reflexivity.
  - apply (proj2 (C9_no_file_raises [("ca.txt", CA_TXT)])). reflexivity.
Defined.

(** ** Lines with a wrong number of fields *)

Lemma national_entry_labelled (z : Archive) (file : string) :
  national_entry z file =
  (f ← zopen z file;
   df ← labelled f national_names;
   year ← py_int (slice file 3 7);
   Ok (setitem df (LName "year") (VInt year))).
Proof.
  unfold national_entry, labelled.
  destruct (zopen z file) as [f|]; [|reflexivity]. cbn [mbind result_bind].
  destruct (read_csv f); reflexivity.
Qed.

Lemma state_entry_labelled (z : Archive) (file : string) :
  state_entry z file = (f ← zopen z file; labelled f state_names).
Proof. reflexivity. Qed.

Lemma labelled_width_Raise (content : string) (names : list string) (df : DataFrame) :
  read_csv content = Ok df ->
  length (columns df) <> length names ->
  labelled content names = Raise ValueError.
Proof.
  intros Hread Hlen. unfold labelled. rewrite Hread. cbn [mbind result_bind].
  apply set_columns_Raise. exact Hlen.
Qed.

Lemma labelled_rejected (content : string) (names : list string)
    (lines : list (list string)) :
  tokenize content = Ok lines ->
  rejected_width (length names) lines ->
  exists e, labelled content names = Raise e.
Proof.
  intros Htok Hbad.
  destruct (read_csv content) as [df|e] eqn:Hread.
  2:{ exists e. unfold labelled. rewrite Hread. reflexivity. }
  exists ValueError. apply (labelled_width_Raise _ _ df Hread).
  apply read_csv_Ok in Hread as (first & rest & Htok' & Hc & _ & _ & Hrest).
  rewrite Htok in Htok'. injection Htok' as ->.
  rewrite Hc, length_map, length_seq.
  destruct Hbad as [(first' & rest' & [= <- <-] & Hfirst)|Hwide]; [exact Hfirst|].
  apply Exists_exists in Hwide as (line & Hin & Hline).
  destruct Hin as [<-|Hin]; [lia|].
  rewrite Forall_forall in Hrest. specialize (Hrest line Hin). lia.
Qed.

Lemma national_entry_Raise (z : Archive) (file : string) (e : exn) :
  In file (national_files z) ->
  national_entry z file = Raise e ->
  exists e', national_from_archive z = Raise e'.
Proof.
  intros Hin Hraise. rewrite national_from_archive_eq.
  destruct (mapM_Raise _ _ _ _ Hin Hraise) as [e' ->]. exists e'. reflexivity.
Qed.

Lemma state_entry_Raise (z : Archive) (file : string) (e : exn) :
  In file (state_files z) ->
  state_entry z file = Raise e ->
  exists e', state_from_archive z = Raise e'.
Proof.
  intros Hin Hraise. rewrite state_from_archive_eq.
  destruct (mapM_Raise _ _ _ _ Hin Hraise) as [e' ->]. exists e'. reflexivity.
Qed.

(** C5, as stated, fails: a later line with fewer fields than expected is
    not refused. [read_csv] fills it with missing values, which makes the
    count column one of floats, and the loader returns the data set with
    that row in it. *)
Lemma C5_short_line_counterexample :
  tokenize ("John,M,100" +:+ NL +:+ "Mary,F") =
    Ok [["John"; "M"; "100"]; ["Mary"; "F"]] /\
  national_from_archive [("yob1999.txt", "John,M,100" +:+ NL +:+ "Mary,F")] =
    Ok (mkFrame national_columns
          [[VStr "John"; VStr "M"; VFloat "100"; VInt 1999];
           [VStr "Mary"; VStr "F"; VNaN; VInt 1999]]) /\
  tokenize ("CA,F,2001,Mary,50" +:+ NL +:+ "CA,M,2001") =
    Ok [["CA"; "F"; "2001"; "Mary"; "50"]; ["CA"; "M"; "2001"]] /\
  state_from_archive [("CA.TXT", "CA,F,2001,Mary,50" +:+ NL +:+ "CA,M,2001")] =
    Ok (mkFrame state_columns
          [[VStr "CA"; VStr "F"; VInt 2001; VStr "Mary"; VFloat "50"];
           [VStr "CA"; VStr "M"; VInt 2001; VNaN; VNaN]]).
Proof. vm_compute. repeat split; reflexivity. Qed.

(** C5, amended. When a file that passes the name test, as the loader
    opens it, has a first line whose number of fields is not the expected
    one (3 national, 5 state), or any line with more fields than that,
    the loader raises: no data set is returned, neither without the line
    nor without the file. *)
Theorem C5_wrong_width_raises (z : Archive) (file content : string)
    (lines : list (list string)) :
  (In file (national_files z) ->
   zopen z file = Ok content ->
   tokenize content = Ok lines ->
   rejected_width 3 lines ->
   exists e, national_from_archive z = Raise e) /\
  (In file (state_files z) ->
   zopen z file = Ok content ->
   tokenize content = Ok lines ->
   rejected_width 5 lines ->
   exists e, state_from_archive z = Raise e).
Proof.
  split; intros Hin Hopen Htok Hbad.
  - destruct (labelled_rejected content national_names lines Htok Hbad) as [e He].
    apply (national_entry_Raise z file e Hin).
    rewrite national_entry_labelled, Hopen. cbn [mbind result_bind].
    rewrite He. reflexivity.
  - destruct (labelled_rejected content state_names lines Htok Hbad) as [e He].
    apply (state_entry_Raise z file e Hin).
    rewrite state_entry_labelled, Hopen. cbn [mbind result_bind].
    exact He.
Qed.

Lemma C5_wrong_width_raises_witness :
  (exists e, national_from_archive
     [("yob1999.txt", yob1999); ("yob2000.txt", "Ann,F,7" +:+ NL +:+ "Bob,M,5,x")]
     = Raise e) /\
  (exists e, state_from_archive
     [("CA.TXT", "CA,F,2001,Mary" +:+ NL +:+ "CA,M,2001,John"); ("TX.TXT", CA_TXT)]
     = Raise e).
Proof.
  split.
  - apply (proj1 (C5_wrong_width_raises _ "yob2000.txt"
                    ("Ann,F,7" +:+ NL +:+ "Bob,M,5,x")
                    [["Ann"; "F"; "7"]; ["Bob"; "M"; "5"; "x"]])).
    + vm_compute. auto.
    + reflexivity.
    + reflexivity.
    + right. apply Exists_cons_tl, Exists_cons_hd. simpl. lia.
  - apply (proj2 (C5_wrong_width_raises _ "CA.TXT"
                    ("CA,F,2001,Mary" +:+ NL +:+ "CA,M,2001,John")
                    [["CA"; "F"; "2001"; "Mary"]; ["CA"; "M"; "2001"; "John"]])).
    + vm_compute. auto.
    + reflexivity.
    + reflexivity.
    + left. eexists _, _. split; [reflexivity|]. simpl. lia.
Defined.







(** ** The year in the file name *)

Lemma substring_length (s : string) (n m : nat) :
  String.length (substring n m s) = Nat.min m (String.length s - n).
Proof.
  revert n m. induction s as [|c s IH]; intros n m.
  - destruct n, m; reflexivity.
  - destruct n as [|n].
    + destruct m as [|m]; [reflexivity|].
      cbn [substring String.length]. rewrite IH. simpl. rewrite Nat.sub_0_r.
      reflexivity.
    + cbn [substring String.length]. rewrite IH. reflexivity.
Qed.

(** ** The cache *)

Section Cache.

Variable net : nat -> string -> result Archive.

Lemma call_hit (k : loader) (p : Process) (df : DataFrame) :
  cache p !! k = Some df -> call net k p = (Ok df, p).
Proof. intros H. unfold call, cache_data. rewrite H. reflexivity. Qed.

Lemma call_miss (k : loader) (p : Process) :
  cache p !! k = None ->
  call net k p =
  match fst (load net k p) with
  | Ok df => (Ok df, mkProcess (names_file k :: log p) (<[k := df]> (cache p)))
  | Raise e => (Raise e, mkProcess (names_file k :: log p) (cache p))
  end.
Proof.
  intros H. unfold call, cache_data. rewrite H. unfold load. cbn [fst].
  destruct (mbind _ _); reflexivity.
Qed.

(** A returned table is in the cache afterwards. *)
Lemma call_Ok_cached (k : loader) (p p' : Process) (df : DataFrame) :
  call net k p = (Ok df, p') -> cache p' !! k = Some df.
Proof.
  destruct (cache p !! k) as [df0|] eqn:Hk.
  - rewrite (call_hit k p df0 Hk). intros [= <- <-]. exact Hk.
  - rewrite (call_miss k p Hk).
    destruct (fst (load net k p)); [|discriminate].
    intros [= <- <-]. cbn [cache]. apply lookup_insert_eq.
Qed.

(** Nothing is ever taken out of the cache or replaced in it. *)
Lemma call_keeps (k k' : loader) (p : Process) (df : DataFrame) :
  cache p !! k = Some df -> cache (snd (call net k' p)) !! k = Some df.
Proof.
  intros H. destruct (cache p !! k') as [df'|] eqn:Hk'.
  - rewrite (call_hit k' p df' Hk'). exact H.
  - rewrite (call_miss k' p Hk').
    assert (Hne : k' <> k) by congruence.
    destruct (fst (load net k' p)); cbn [snd cache]; [|exact H].
    rewrite lookup_insert_ne by exact Hne. exact H.
Qed.

Lemma calls_keep (k : loader) (ks : list loader) (p : Process) (df : DataFrame) :
  cache p !! k = Some df -> cache (calls net ks p) !! k = Some df.
Proof.
  revert p. induction ks as [|k' ks IH]; intros p H; [exact H|].
  unfold calls. cbn [foldl]. apply IH, call_keeps, H.
Qed.

Lemma names_file_inj (k k' : loader) :
  k <> k' -> String.eqb (names_file k) (names_file k') = false.
Proof. destruct k, k'; intros H; try contradiction; reflexivity. Qed.

(** With the table of [k] in the cache no call sends a request to the
    address of [k]. *)
Lemma call_fetches (k k' : loader) (p : Process) (df : DataFrame) :
  cache p !! k = Some df -> fetches k (snd (call net k' p)) = fetches k p.
Proof.
  intros H. destruct (cache p !! k') as [df'|] eqn:Hk'.
  - rewrite (call_hit k' p df' Hk'). reflexivity.
  - rewrite (call_miss k' p Hk').
    assert (Hne : k <> k') by congruence.
    destruct (fst (load net k' p)); unfold fetches; cbn [snd log List.filter];
      rewrite (names_file_inj k k' Hne); reflexivity.
Qed.

Lemma calls_fetches (k : loader) (ks : list loader) (p : Process) (df : DataFrame) :
  cache p !! k = Some df -> fetches k (calls net ks p) = fetches k p.
Proof.
  revert p. induction ks as [|k' ks IH]; intros p H; [reflexivity|].
  unfold calls. cbn [foldl]. fold (calls net ks (snd (call net k' p))).
  rewrite IH by (apply call_keeps, H). apply call_fetches with df, H.
Qed.

(** A call that finds nothing in the cache sends exactly one request. *)
Lemma call_miss_log (k : loader) (p : Process) :
  cache p !! k = None -> log (snd (call net k p)) = names_file k :: log p.
Proof.
  intros H. rewrite (call_miss k p H).
  destruct (fst (load net k p)); reflexivity.
Qed.

Lemma call_other_cache (k k' : loader) (p : Process) :
  k <> k' -> cache p !! k = None -> cache (snd (call net k' p)) !! k = None.
Proof.
  intros Hne H. destruct (cache p !! k') as [df'|] eqn:Hk'.
  - rewrite (call_hit k' p df' Hk'). exact H.
  - rewrite (call_miss k' p Hk').
    destruct (fst (load net k' p)); cbn [snd cache]; [|exact H].
    rewrite lookup_insert_ne by congruence. exact H.
Qed.

End Cache.

(** C3. Once a call of a cached loader has returned, every later call
    of the same loader, whatever calls of either loader came between,
    leaves the process as it is: it runs no pipeline and sends no
    request, and the number of requests to that loader's address stays
    what it was (one, when the process began with an empty cache). The
    first calls of the two loaders in a fresh process send exactly two
    requests, one to each address. *)
Theorem C3_fetch_once (net : nat -> string -> result Archive) :
  (forall k p df p' ks,
     call net k p = (Ok df, p') ->
     snd (call net k (calls net ks p')) = calls net ks p' /\
     fetches k (calls net ks p') = fetches k p') /\
  (forall k df p' ks,
     call net k start = (Ok df, p') ->
     fetches k (calls net ks p') = 1) /\
  (forall k k',
     k <> k' ->
     length (log (calls net [k; k'] start)) = 2 /\
     fetches k (calls net [k; k'] start) = 1 /\
     fetches k' (calls net [k; k'] start) = 1).
Proof.
  split; [|split].
  - intros k p df p' ks Hcall.
    pose proof (call_Ok_cached net k p p' df Hcall) as Hin.
    split.
    + rewrite (call_hit net k _ df (calls_keep net k ks p' df Hin)). reflexivity.
    + apply calls_fetches with df, Hin.
  - intros k df p' ks Hcall.
    pose proof (call_Ok_cached net k start p' df Hcall) as Hin.
    rewrite (calls_fetches net k _ p' df Hin).
    assert (Hlog : log p' = [names_file k]).
    { pose proof (call_miss_log net k start (lookup_empty k)) as H.
      rewrite Hcall in H. exact H. }
    unfold fetches. rewrite Hlog. cbn [List.filter].
    rewrite String.eqb_refl. reflexivity.
  - intros k k' Hne.
    assert (Hlog : log (calls net [k; k'] start) = [names_file k'; names_file k]).
    { unfold calls. cbn [foldl].
      rewrite call_miss_log.
      - rewrite call_miss_log by apply lookup_empty. reflexivity.
      - apply call_other_cache; [congruence | apply lookup_empty]. }
    unfold fetches. rewrite Hlog. cbn [List.filter].
    rewrite !String.eqb_refl, (names_file_inj k k' Hne).
    rewrite (names_file_inj k' k) by congruence.
    repeat split; reflexivity.
Qed.

Lemma C3_fetch_once_witness :
  (snd (call ssa_gov National (calls ssa_gov [State; National; State] loaded_once)) =
   calls ssa_gov [State; National; State] loaded_once /\
   fetches National (calls ssa_gov [State; National; State] loaded_once) =
   fetches National loaded_once) /\
  fetches National (calls ssa_gov [National; State; State; National] loaded_once) = 1 /\
  length (log (calls ssa_gov [National; State] start)) = 2.
Proof.
  assert (Hcall : call ssa_gov National start = (Ok national_data, loaded_once))
    by (vm_compute; reflexivity).
  split; [|split].
  - apply (proj1 (C3_fetch_once ssa_gov) National start national_data loaded_once
             [State; National; State] Hcall).
  - apply (proj1 (proj2 (C3_fetch_once ssa_gov)) National national_data loaded_once
             [National; State; State; National] Hcall).
  - apply (proj2 (proj2 (C3_fetch_once ssa_gov)) National State). discriminate.
Defined.

(** C7. After a call of a cached loader has returned a data set, every
    later call of that loader returns that same data set, the same rows
    with the same values in the same order, whatever was called between. *)
Theorem C7_same_data_again (net : nat -> string -> result Archive)
    (k : loader) (p p' : Process) (df : DataFrame) (ks : list loader) :
  call net k p = (Ok df, p') ->
  fst (call net k (calls net ks p')) = Ok df.
Proof.
  intros Hcall.
  pose proof (call_Ok_cached net k p p' df Hcall) as Hin.
  rewrite (call_hit net k _ df (calls_keep net k ks p' df Hin)). reflexivity.
Qed.

Lemma C7_same_data_again_witness :
  fst (call ssa_gov National
         (calls ssa_gov [National; State; National] loaded_once)) =
  Ok national_data.
Proof.
  apply (C7_same_data_again ssa_gov National start).
  vm_compute. reflexivity.
Defined.

(** ** The loader of the MLB dashboard *)

Lemma pick_cons {A} (b : bool) (mask : list bool) (x : A) (l : list A) :
  pick (b :: mask) (x :: l) = if b then x :: pick mask l else pick mask l.
Proof. unfold pick. cbn [combine List.filter fst]. destruct b; reflexivity. Qed.

Lemma pick_map {A} (f : A -> bool) (l : list A) :
  pick (map f l) l = List.filter f l.
Proof.
  induction l as [|x l IH]; [reflexivity|].
  cbn [map]. rewrite pick_cons. cbn [List.filter]. rewrite IH. reflexivity.
Qed.

Lemma pick_not_Unnamed (labels : list label) (unnamed : list bool) :
  mapM contains_Unnamed labels = Ok unnamed ->
  Forall (fun l => exists s, l = LName s /\ startswith s "Unnamed" = false)
    (pick (map negb unnamed) labels).
Proof.
  intros H. apply mapM_Forall2 in H.
  induction H as [|l b labels unnamed Hl _ IH]; [constructor|].
  cbn [map]. rewrite pick_cons.
  destruct l as [i|s]; [discriminate|].
  injection Hl as <-.
  destruct (startswith s "Unnamed") eqn:E; cbn [negb]; [exact IH|].
  constructor; [|exact IH]. exists s. auto.
Qed.

Lemma ne_str_true (s : string) (v : value) : ne_str s v = true -> v <> VStr s.
Proof.
  intros H ->. cbn [ne_str] in H. rewrite String.eqb_refl in H. discriminate.
Qed.

(** C10. In the table that [load_data] returns there is a column
    [Team], no row has the value [2TM] in it, and no column has a name
    that begins with [Unnamed]. The table read from the address has
    pairwise distinct column names, as [read_csv] makes them. *)
Theorem C10_single_team_rows (df0 df : DataFrame) :
  List.NoDup (columns df0) ->
  load_data (Ok df0) = Ok df ->
  (exists i, index_of (LName "Team") (columns df) = Some i /\
             Forall (fun row => nth i row VNaN <> VStr "2TM") (rows df)) /\
  Forall (fun l => exists s, l = LName s /\ startswith s "Unnamed" = false)
    (columns df).
Proof.
  intros _ H. unfold load_data in H. cbn [mbind result_bind] in H.
  apply bind_Ok in H as (unnamed & Hmask & H).
  apply bind_Ok in H as (team & Hteam & [= <-]).
  unfold getitem in Hteam.
  destruct (index_of _ _) as [i|] eqn:Hi; [|discriminate].
  injection Hteam as <-.
  split.
  - exists i. split; [reflexivity|].
    unfold getitem_mask. cbn [rows].
    rewrite map_map, pick_map.
    apply Forall_forall. intros row Hrow.
    apply List.filter_In in Hrow as [_ Hrow]. apply ne_str_true, Hrow.
  - unfold getitem_mask, loc_columns. cbn [columns].
    apply pick_not_Unnamed, Hmask.
Qed.

Lemma C10_single_team_rows_witness :
  load_data (Ok baseball_data) =
    Ok (mkFrame [LName "Player"; LName "Team"; LName "HR"]
          [[VStr "Aaron Judge"; VStr "NYY"; VInt 58];
           [VStr "Free Agent"; VNaN; VInt 3]]) /\
  Forall (fun l => exists s, l = LName s /\ startswith s "Unnamed" = false)
    [LName "Player"; LName "Team"; LName "HR"].
Proof.
  assert (Hload : load_data (Ok baseball_data) =
                  Ok (mkFrame [LName "Player"; LName "Team"; LName "HR"]
                        [[VStr "Aaron Judge"; VStr "NYY"; VInt 58];
                         [VStr "Free Agent"; VNaN; VInt 3]]))
    by (vm_compute; reflexivity).
  split; [exact Hload|].
  refine (proj2 (C10_single_team_rows baseball_data _ _ Hload)).
  unfold baseball_data. cbn [columns].
  repeat (constructor; [simpl; intuition discriminate|]). constructor.
Defined.

(** * Further properties of the loaders *)

(** A returned data set, taken apart into the tables of its files. *)
Lemma assembled_inv (cols : list label) {A}
    (entry : A -> result DataFrame) (files : list A) (data : DataFrame) :
  List.NoDup cols ->
  (forall file df, entry file = Ok df ->
     columns df = cols /\ rows_of_width (length cols) df) ->
  (dfs ← mapM entry files; concat dfs) = Ok data ->
  exists dfs,
    Forall2 (fun file df => entry file = Ok df) files dfs /\
    files <> [] /\
    data = mkFrame cols (unified_rows (length cols) dfs).
Proof.
  intros Hnd Hshape Hdata.
  apply bind_Ok in Hdata as (dfs & Hmap & Hcat).
  apply mapM_Forall2 in Hmap. exists dfs.
  assert (Hne : files <> []).
  { intros ->. inversion Hmap; subst. discriminate. }
  split; [exact Hmap|]. split; [exact Hne|].
  destruct (assemble_tables cols entry files dfs Hnd Hshape Hmap) as [Hok _].
  apply mapM_Forall2 in Hmap. cbn zeta in Hok. rewrite Hmap in Hok.
  cbn [mbind result_bind] in Hok. rewrite (Hok Hne) in Hcat.
  injection Hcat as <-. reflexivity.
Qed.

Lemma national_inv (z : Archive) (data : DataFrame) :
  national_from_archive z = Ok data ->
  exists dfs,
    Forall2 (fun file df => national_entry z file = Ok df) (national_files z) dfs /\
    national_files z <> [] /\
    data = mkFrame national_columns (unified_rows 4 dfs).
Proof.
  rewrite national_from_archive_eq.
  apply assembled_inv; [apply national_columns_NoDup | apply national_entry_shape].
Qed.

Lemma state_inv (z : Archive) (data : DataFrame) :
  state_from_archive z = Ok data ->
  exists dfs,
    Forall2 (fun file df => state_entry z file = Ok df) (state_files z) dfs /\
    state_files z <> [] /\
    data = mkFrame state_columns (unified_rows 5 dfs).
Proof.
  rewrite state_from_archive_eq.
  apply assembled_inv; [apply state_columns_NoDup | apply state_entry_shape].
Qed.

Lemma flat_map_rows_width (w : nat) (dfs : list DataFrame) :
  Forall (fun df => rows_of_width w df) dfs ->
  Forall (fun row : list value => length row = w) (flat_map rows dfs).
Proof.
  induction 1 as [|df dfs Hdf _ IH]; cbn [flat_map]; [constructor|].
  apply Forall_app. split; [exact Hdf | exact IH].
Qed.

Lemma Forall2_Forall_r {A B} (R : A -> B -> Prop) (P : B -> Prop)
    (l : list A) (k : list B) :
  (forall a b, R a b -> P b) -> Forall2 R l k -> Forall P k.
Proof.
  intros HP H. induction H; constructor; eauto.
Qed.

(** X1. A data set that a loader returns has exactly the columns of that
    loader, in their order, and every row has one cell for each column:
    four for the national loader, five for the state loader. *)
Theorem loaders_schema (z : Archive) (data : DataFrame) :
  (national_from_archive z = Ok data ->
   columns data = [LName "name"; LName "sex"; LName "count"; LName "year"] /\
   Forall (fun row => length row = 4) (rows data)) /\
  (state_from_archive z = Ok data ->
   columns data =
     [LName "state"; LName "sex"; LName "year"; LName "name"; LName "count"] /\
   Forall (fun row => length row = 5) (rows data)).
Proof.
  split; intros H.
  - apply national_inv in H as (dfs & Hall & _ & ->).
    split; [reflexivity|]. cbn [rows]. apply unified_rows_width.
    eapply Forall2_Forall_r; [|exact Hall].
    intros file df Hdf. apply (national_entry_shape z file df Hdf).
  - apply state_inv in H as (dfs & Hall & _ & ->).
    split; [reflexivity|]. cbn [rows]. apply unified_rows_width.
    eapply Forall2_Forall_r; [|exact Hall].
    intros file df Hdf. apply (state_entry_shape z file df Hdf).
Qed.

Lemma loaders_schema_witness :
  Forall (fun row : list value => length row = 4) (rows national_data) /\
  Forall (fun row : list value => length row = 5) (rows state_table).
Proof.
  assert (HN : national_from_archive names_zip = Ok national_data)
    by (vm_compute; reflexivity).
  assert (HS : state_from_archive namesbystate_zip = Ok state_table)
    by (vm_compute; reflexivity).
  split.
  - apply (proj2 (proj1 (loaders_schema names_zip national_data) HN)).
  - apply (proj2 (proj2 (loaders_schema namesbystate_zip state_table) HS)).
Defined.

Lemma read_csv_nrows (content : string) (df : DataFrame) :
  read_csv content = Ok df -> 1 <= nrows df.
Proof.
  intros H. apply read_csv_Ok in H as (_ & rest & _ & _ & _ & Hn & _). lia.
Qed.

Lemma national_entry_nrows (z : Archive) (file : string) (df : DataFrame) :
  national_entry z file = Ok df -> 1 <= nrows df.
Proof.
  intros H.
  apply national_entry_Ok in H as (c & df0 & y & _ & Hread & _ & _ & _ & Hrows & _).
  unfold nrows. rewrite Hrows, length_map. apply (read_csv_nrows c df0 Hread).
Qed.

Lemma state_entry_nrows (z : Archive) (file : string) (df : DataFrame) :
  state_entry z file = Ok df -> 1 <= nrows df.
Proof.
  intros H.
  apply state_entry_Ok in H as (c & df0 & _ & Hread & _ & _ & Hrows & _).
  unfold nrows. rewrite Hrows. apply (read_csv_nrows c df0 Hread).
Qed.

Lemma assembled_nrows {A} (entry : A -> result DataFrame) (files : list A)
    (dfs : list DataFrame) :
  (forall file df, entry file = Ok df -> 1 <= nrows df) ->
  Forall2 (fun file df => entry file = Ok df) files dfs ->
  length files <= length (flat_map rows dfs).
Proof.
  intros Hn H. induction H as [|file df files dfs Hdf _ IH]; [reflexivity|].
  cbn [flat_map length]. rewrite length_app.
  specialize (Hn file df Hdf). unfold nrows in Hn. lia.
Qed.

(** X2. A loader never returns a data set without rows: every file that
    passes the name test gives at least one row (a file of blank lines
    only makes [read_csv] raise), and there is at least one such file. *)
Theorem loaders_never_empty (z : Archive) (data : DataFrame) :
  (national_from_archive z = Ok data ->
   1 <= length (national_files z) <= nrows data) /\
  (state_from_archive z = Ok data ->
   1 <= length (state_files z) <= nrows data).
Proof.
  split; intros H.
  - apply national_inv in H as (dfs & Hall & Hne & ->).
    pose proof (assembled_nrows _ _ _ (national_entry_nrows z) Hall) as Hlen.
    unfold nrows. cbn [rows]. rewrite unified_rows_length.
    destruct (national_files z); [contradiction|].
    simpl in *. lia.
  - apply state_inv in H as (dfs & Hall & Hne & ->).
    pose proof (assembled_nrows _ _ _ (state_entry_nrows z) Hall) as Hlen.
    unfold nrows. cbn [rows]. rewrite unified_rows_length.
    destruct (state_files z); [contradiction|].
    simpl in *. lia.
Qed.

Lemma loaders_never_empty_witness :
  1 <= length (national_files names_zip) <= nrows national_data /\
  1 <= length (state_files namesbystate_zip) <= nrows state_table.
Proof.
  split.
  - apply (proj1 (loaders_never_empty names_zip national_data)).
    vm_compute. reflexivity.
  - apply (proj2 (loaders_never_empty namesbystate_zip state_table)).
    vm_compute. reflexivity.
Defined.

(** ** The year of a file name, continued *)

Lemma is_digit_range (c : ascii) :
  is_digit c = true -> 48 <= code c <= 57.
Proof.
  unfold is_digit. intros H. apply andb_prop in H as [H1 H2].
  apply Nat.leb_le in H1, H2. lia.
Qed.

Lemma digit_not_space (c : ascii) : is_digit c = true -> py_isspace c = false.
Proof.
  intros H. apply is_digit_range in H. unfold py_isspace.
  repeat match goal with
         | |- context [?a <=? ?b] => destruct (Nat.leb_spec a b); try lia
         | |- context [?a =? ?b] => destruct (Nat.eqb_spec a b); try lia
         end; reflexivity.
Qed.

Lemma digit_not_char (c d : ascii) :
  is_digit c = true -> is_digit d = false -> Ascii.eqb c d = false.
Proof.
  intros Hc Hd. destruct (Ascii.eqb_spec c d) as [->|]; [congruence | reflexivity].
Qed.

Lemma digit_val_range (c : ascii) :
  is_digit c = true -> (0 <= digit_val c <= 9)%Z.
Proof. intros H. apply is_digit_range in H. unfold digit_val. lia. Qed.

Lemma substring_0_0 (s : string) : substring 0 0 s = "".
Proof. destruct s; reflexivity. Qed.

(** X3. A file name made of three characters, four digits and anything
    after them gives the year those four digits write in base ten. *)
Theorem year_of_regular_name (a b c d1 d2 d3 d4 : ascii) (rest : string) :
  is_digit d1 = true -> is_digit d2 = true ->
  is_digit d3 = true -> is_digit d4 = true ->
  py_int (slice (String a (String b (String c
            (String d1 (String d2 (String d3 (String d4 rest))))))) 3 7) =
  Ok (1000 * digit_val d1 + 100 * digit_val d2 + 10 * digit_val d3 + digit_val d4)%Z.
Proof.
  intros H1 H2 H3 H4.
  unfold slice. cbn [Nat.sub substring]. rewrite substring_0_0.
  unfold py_int, chars, strip_with. cbn [list_ascii_of_string drop_while].
  rewrite (digit_not_space d1 H1). cbn [rev app drop_while].
  rewrite (digit_not_space d4 H4). cbn [rev app].
  unfold signed_value.
  rewrite (digit_not_char d1 "-" H1 eq_refl), (digit_not_char d1 "+" H1 eq_refl).
  cbn [digits_value]. rewrite H1, H2, H3, H4.
  f_equal. lia.
Qed.

Lemma year_of_regular_name_witness :
  py_int (slice "yob1987.txt" 3 7) = Ok 1987%Z.
Proof.
  apply (year_of_regular_name "y" "o" "b" "1" "9" "8" "7" ".txt"); reflexivity.
Defined.

Lemma drop_while_length {A} (p : A -> bool) (l : list A) :
  length (drop_while p l) <= length l.
Proof.
  induction l as [|x l IH]; simpl; [lia|]. destruct (p x); simpl; lia.
Qed.

Lemma strip_with_length (sp : ascii -> bool) (l : list ascii) :
  length (strip_with sp l) <= length l.
Proof.
  unfold strip_with. rewrite length_rev.
  etransitivity; [apply drop_while_length|]. rewrite length_rev.
  apply drop_while_length.
Qed.

Lemma chars_length (s : string) : length (chars s) = String.length s.
Proof. induction s as [|c s IH]; simpl; [reflexivity | f_equal; exact IH]. Qed.

Lemma digits_value_bound (seps : bool) (l : list ascii) (acc : Z)
    (after_digit : bool) (z : Z) :
  (0 <= acc)%Z ->
  digits_value seps acc after_digit l = Some z ->
  (0 <= z < (acc + 1) * 10 ^ Z.of_nat (length l))%Z.
Proof.
  revert acc after_digit. induction l as [|c l IH]; intros acc ad Hacc H.
  - cbn [digits_value] in H. destruct ad; [|discriminate].
    injection H as <-. simpl. lia.
  - cbn [digits_value] in H. cbn [length].
    rewrite Nat2Z.inj_succ, Z.pow_succ_r by lia.
    assert (Hpow : (0 < 10 ^ Z.of_nat (length l))%Z) by (apply Z.pow_pos_nonneg; lia).
    destruct (is_digit c) eqn:Hc.
    + pose proof (digit_val_range c Hc) as Hd.
      apply IH in H; [|lia]. nia.
    + destruct (seps && Ascii.eqb c "_" && ad); [|discriminate].
      apply IH in H; [|lia]. nia.
Qed.

Lemma signed_value_bound (seps : bool) (l : list ascii) (z : Z) :
  length l <= 4 ->
  signed_value seps l = Some z ->
  (-999 <= z <= 9999)%Z.
Proof.
  intros Hlen H. unfold signed_value in H.
  destruct l as [|c l]; [discriminate|].
  assert (Hsmall : forall z', digits_value seps 0 false l = Some z' ->
                              (0 <= z' <= 999)%Z).
  { intros z' Hz. apply digits_value_bound in Hz; [|lia].
    simpl in Hlen.
    assert (10 ^ Z.of_nat (length l) <= 10 ^ 3)%Z
      by (apply Z.pow_le_mono_r; lia).
    lia. }
  destruct (Ascii.eqb c "-").
  - destruct (digits_value seps 0 false l) as [z'|] eqn:Hz; [|discriminate].
    injection H as <-. specialize (Hsmall z' eq_refl). lia.
  - destruct (Ascii.eqb c "+").
    + specialize (Hsmall z H). lia.
    + apply digits_value_bound in H; [|lia].
      assert (10 ^ Z.of_nat (length (c :: l)) <= 10 ^ 4)%Z
        by (apply Z.pow_le_mono_r; lia).
      lia.
Qed.

(** X4. Whatever the file name, a year that is read from it lies between
    -999 and 9999: at most four characters are handed to [int]. *)
Theorem year_bounds (file : string) (year : Z) :
  py_int (slice file 3 7) = Ok year -> (-999 <= year <= 9999)%Z.
Proof.
  unfold py_int. intros H.
  destruct (signed_value true _) as [z|] eqn:Hz; [|discriminate].
  injection H as <-.
  apply (signed_value_bound true _ z) in Hz; [exact Hz|].
  etransitivity; [apply strip_with_length|].
  rewrite chars_length. unfold slice. rewrite substring_length. lia.
Qed.

Lemma year_bounds_witness :
  (-999 <= -12 <= 9999)%Z /\ py_int (slice "tmp-12 .txt" 3 7) = Ok (-12)%Z.
Proof.
  split; [|reflexivity].
  apply (year_bounds "tmp-12 .txt" (-12)). reflexivity.
Defined.

Lemma national_entry_bad_year (z : Archive) (file : string) (e : exn) :
  py_int (slice file 3 7) = Raise e ->
  exists e', national_entry z file = Raise e'.
Proof.
  intros H. rewrite national_entry_labelled.
  destruct (zopen z file) as [f|e1]; [|eauto]. cbn [mbind result_bind].
  destruct (labelled f national_names) as [df|e2]; [|eauto].
  cbn [mbind result_bind]. rewrite H. eauto.
Qed.

(** X5. One file that passes the name test and whose characters 3 to 6
    are no whole number is enough for the national loader to raise,
    whatever the other files hold. *)
Theorem bad_year_fails_load (z : Archive) (file : string) (e : exn) :
  In file (national_files z) ->
  py_int (slice file 3 7) = Raise e ->
  exists e', national_from_archive z = Raise e'.
Proof.
  intros Hin Hyear.
  destruct (national_entry_bad_year z file e Hyear) as [e1 He1].
  apply (national_entry_Raise z file e1 Hin He1).
Qed.

Lemma bad_year_fails_load_witness :
  exists e', national_from_archive
               [("yob1999.txt", yob1999); ("NationalReadMe.txt", "Ann,F,7")]
             = Raise e'.
Proof.
  apply (bad_year_fails_load _ "NationalReadMe.txt" ValueError).
  - vm_compute. auto.
  - reflexivity.
Defined.

Lemma Forall2_Forall_In {A B} (R : A -> B -> Prop) (l : list A) (k : list B) :
  Forall2 R l k -> Forall (fun b => exists a, In a l /\ R a b) k.
Proof.
  induction 1 as [|a b l k Hab _ IH]; constructor.
  - exists a. split; [left; reflexivity | exact Hab].
  - eapply Forall_impl; [|exact IH].
    intros b' (a' & Hin & HR). exists a'. split; [right; exact Hin | exact HR].
Qed.

Lemma flat_map_Forall {A B} (f : A -> list B) (P : B -> Prop) (l : list A) :
  Forall (fun a => Forall P (f a)) l -> Forall P (flat_map f l).
Proof.
  induction 1 as [|a l Ha _ IH]; cbn [flat_map]; [constructor|].
  apply Forall_app. split; assumption.
Qed.

(** The rows of one national table, with their fourth cell. *)
Lemma national_entry_year (z : Archive) (file : string) (df : DataFrame) :
  national_entry z file = Ok df ->
  exists year,
    py_int (slice file 3 7) = Ok year /\
    Forall (fun row => nth 3 row VNaN = VInt year) (rows df).
Proof.
  intros H.
  apply national_entry_Ok in H
    as (c & df0 & year & _ & Hread & Hlen & Hyear & _ & Hrows & _).
  exists year. split; [exact Hyear|].
  apply read_csv_Ok in Hread as (first & rest & _ & Hc & Hw & _).
  rewrite Hc, length_map, length_seq in Hlen. rewrite Hlen in Hw.
  rewrite Hrows. apply Forall_map.
  eapply Forall_impl; [|exact Hw].
  intros row Hrow. cbn beta in *.
  rewrite app_nth2; rewrite Hrow; [reflexivity | lia].
Qed.

Lemma column_of_ints (block : list (list value)) (j : nat) :
  block <> [] ->
  Forall (fun row => is_int64 (nth j row VNaN) = true) block ->
  dtype_of (column_cells block j) = DInt64.
Proof.
  intros Hne Hall. unfold dtype_of, column_cells.
  destruct block as [|row block]; [contradiction|].
  cbn [map]. change (nth j row VNaN :: map (fun r => nth j r VNaN) block)
    with (map (fun r => nth j r VNaN) (row :: block)).
  rewrite (proj2 (forallb_forall _ _)); [reflexivity|].
  intros v Hv. apply in_map_iff in Hv as (r & <- & Hr).
  rewrite Forall_forall in Hall. apply Hall, Hr.
Qed.

Lemma py_int_short (s : string) (z : Z) :
  String.length s <= 4 -> py_int s = Ok z -> (-999 <= z <= 9999)%Z.
Proof.
  unfold py_int. intros Hlen H.
  destruct (signed_value true _) as [z'|] eqn:Hz; [|discriminate].
  injection H as <-.
  apply (signed_value_bound true _ z') in Hz; [exact Hz|].
  etransitivity; [apply strip_with_length|].
  rewrite chars_length. exact Hlen.
Qed.

Lemma national_entry_year_column (z : Archive) (file : string) (df : DataFrame) :
  national_entry z file = Ok df ->
  dtype_of (column_cells (rows df) 3) = DInt64 /\
  Forall (fun row => is_VInt (nth 3 row VNaN) = true) (rows df).
Proof.
  intros H. pose proof (national_entry_nrows z file df H) as Hn.
  apply national_entry_year in H as (year & Hyear & Hrows).
  assert (Hb : (-999 <= year <= 9999)%Z).
  { apply (py_int_short (slice file 3 7) year); [|exact Hyear].
    unfold slice. rewrite substring_length. lia. }
  split.
  - apply column_of_ints.
    + unfold nrows in Hn. destruct (rows df); [simpl in Hn; lia | discriminate].
    + eapply Forall_impl; [|exact Hrows]. intros row ->. cbn [is_int64].
      unfold INT64_MIN, INT64_MAX. apply andb_true_iff. split; apply Z.leb_le; lia.
  - eapply Forall_impl; [|exact Hrows]. intros row ->. reflexivity.
Qed.

(** In the assembled national table the year of a row is the year of the
    row it is made of. *)
Lemma national_unified_year (z : Archive) (files : list string)
    (dfs : list DataFrame) (row : list value) :
  Forall2 (fun file df => national_entry z file = Ok df) files dfs ->
  In row (flat_map rows dfs) ->
  nth 3 (zip_with astype (common_types 4 (map rows dfs)) row) VNaN = nth 3 row VNaN.
Proof.
  intros Hall Hin.
  assert (Hne : dfs <> []) by (intros ->; destruct Hin).
  apply (unified_rows_int_column 4 3 dfs row); [lia | exact Hne | | | exact Hin |].
  - eapply Forall2_Forall_r; [|exact Hall].
    intros file df Hdf. apply (national_entry_shape z file df Hdf).
  - eapply Forall2_Forall_r; [|exact Hall].
    intros file df Hdf. apply (national_entry_year_column z file df Hdf).
  - apply in_flat_map in Hin as (df & Hdf & Hrow).
    assert (Hcol : Forall (fun df => Forall (fun row => is_VInt (nth 3 row VNaN) = true)
                                       (rows df)) dfs).
    { eapply Forall2_Forall_r; [|exact Hall].
      intros file df' Hdf'. apply (national_entry_year_column z file df' Hdf'). }
    rewrite Forall_forall in Hcol. specialize (Hcol df Hdf).
    rewrite Forall_forall in Hcol. apply Hcol, Hrow.
Qed.

Lemma Forall2_In_l {A B} (R : A -> B -> Prop) (l : list A) (k : list B) (a : A) :
  Forall2 R l k -> In a l -> exists b, In b k /\ R a b.
Proof.
  induction 1 as [|x y l k Hxy _ IH]; intros Hin; [destruct Hin|].
  destruct Hin as [<-|Hin].
  - exists y. split; [left; reflexivity | exact Hxy].
  - destruct (IH Hin) as (b & Hb & HR). exists b. split; [right; exact Hb | exact HR].
Qed.

(** C8. The characters 3 to 6 of a file name are taken without any
    check and without any error: of a shorter name only what is there is
    taken. Once a file that passes the name test is read and its columns
    are named, its year can fail in one way only, [int] raising on those
    characters: the turn of the loop raises the same exception and the
    loader raises, that very exception when the file is the only one.
    When [int] accepts the characters, whatever part of the name they
    are, its value is written as the year of every row of the file: the
    loader returns exactly these rows when the file is the only one, and
    whenever it returns a data set, every row of the file is in it with
    that year. *)
Theorem C8_year_of_name (z : Archive) (file content : string) (df0 : DataFrame) :
  String.length (slice file 3 7) = Nat.min 4 (String.length file - 3) /\
  (In file (national_files z) ->
   zopen z file = Ok content ->
   labelled content national_names = Ok df0 ->
   (forall e, py_int (slice file 3 7) = Raise e ->
      national_entry z file = Raise e /\
      (exists e', national_from_archive z = Raise e') /\
      (national_files z = [file] -> national_from_archive z = Raise e)) /\
   (forall year, py_int (slice file 3 7) = Ok year ->
      let recorded := map (fun row => row ++ [VInt year]) (rows df0) in
      national_entry z file = Ok (mkFrame national_columns recorded) /\
      (national_files z = [file] ->
       national_from_archive z = Ok (mkFrame national_columns recorded)) /\
      (forall data, national_from_archive z = Ok data ->
         Forall (fun row => exists row',
                   In row' (rows data) /\
                   Forall2 retyped row row' /\
                   nth 3 row' VNaN = VInt year)
           recorded))).
Proof.
  split; [apply substring_length|].
  intros Hin Hopen Hlab.
  assert (Hcols : columns df0 = map LName national_names).
  { unfold labelled in Hlab. apply bind_Ok in Hlab as (df & _ & Hset).
    apply set_columns_Ok in Hset as (_ & Hc & _). exact Hc. }
  split.
  - intros e He.
    assert (Hentry : national_entry z file = Raise e).
    { rewrite national_entry_labelled, Hopen. cbn [mbind result_bind].
      rewrite Hlab. cbn [mbind result_bind]. rewrite He. reflexivity. }
    split; [exact Hentry|]. split.
    + apply (national_entry_Raise z file e Hin Hentry).
    + intros Hfiles. rewrite national_from_archive_eq, Hfiles.
      cbn [mapM]. rewrite Hentry. reflexivity.
  - intros year Hyear recorded.
    assert (Hentry : national_entry z file = Ok (mkFrame national_columns recorded)).
    { rewrite national_entry_labelled, Hopen. cbn [mbind result_bind].
      rewrite Hlab. cbn [mbind result_bind]. rewrite Hyear. cbn [mbind result_bind].
      unfold setitem. rewrite Hcols. reflexivity. }
    pose proof (national_entry_shape z file _ Hentry) as [_ Hw].
    split; [exact Hentry|]. split.
    + intros Hfiles. rewrite national_from_archive_eq, Hfiles.
      cbn [mapM]. rewrite Hentry. cbn [mbind result_bind].
      apply concat_single; [apply national_columns_NoDup | exact Hw].
    + intros data Hdata.
      apply national_inv in Hdata as (dfs & Hall & _ & ->). cbn [rows].
      destruct (Forall2_In_l _ _ _ file Hall Hin) as (df & Hdf & Hfile).
      rewrite Hentry in Hfile. injection Hfile as <-.
      apply Forall_forall. intros row Hrow.
      assert (Hflat : In row (flat_map rows dfs)).
      { apply in_flat_map. exists (mkFrame national_columns recorded). auto. }
      exists (zip_with astype (common_types 4 (map rows dfs)) row).
      split; [|split].
      * unfold unified_rows. apply in_map, Hflat.
      * apply zip_astype_retyped. rewrite common_types_length.
        unfold rows_of_width in Hw. rewrite Forall_forall in Hw.
        symmetry. apply (Hw row Hrow).
      * rewrite (national_unified_year z _ dfs row Hall Hflat).
        pose proof (national_entry_year z file _ Hentry) as (y & Hy & Hrows).
        rewrite Hyear in Hy. injection Hy as <-.
        rewrite Forall_forall in Hrows. apply (Hrows row Hrow).
Qed.

(** A name too short for four characters, which [int] refuses, and a name
    with five digits, of which the last four are taken as the year. *)
Lemma C8_year_of_name_witness :
  (slice "a.txt" 3 7 = "xt" /\
   national_from_archive [("a.txt", "Ann,F,7")] = Raise ValueError) /\
  (slice "ab19990.txt" 3 7 = "9990" /\
   national_from_archive [("ab19990.txt", "Ann,F,7")] =
   Ok (mkFrame national_columns [[VStr "Ann"; VStr "F"; VInt 7; VInt 9990]])).
Proof.
  assert (Hlab : labelled "Ann,F,7" national_names =
                 Ok (mkFrame (map LName national_names)
                       [[VStr "Ann"; VStr "F"; VInt 7]]))
    by (vm_compute; reflexivity).
  split; (split; [reflexivity|]).
  - destruct (proj2 (C8_year_of_name [("a.txt", "Ann,F,7")] "a.txt" "Ann,F,7"
                       (mkFrame (map LName national_names)
                          [[VStr "Ann"; VStr "F"; VInt 7]])))
      as [Hraise _].
    + vm_compute. auto.
    + reflexivity.
    + exact Hlab.
    + destruct (Hraise ValueError eq_refl) as (_ & _ & Hload).
      apply Hload. reflexivity.
  - destruct (proj2 (C8_year_of_name [("ab19990.txt", "Ann,F,7")] "ab19990.txt"
                       "Ann,F,7"
                       (mkFrame (map LName national_names)
                          [[VStr "Ann"; VStr "F"; VInt 7]])))
      as [_ Hyear].
    + vm_compute. auto.
    + reflexivity.
    + exact Hlab.
    + destruct (Hyear 9990%Z eq_refl) as (_ & Hload & _).
      apply Hload. reflexivity.
Defined.

(** X6. In the national data set the year of every row is a whole
    number, the one that [int] reads in the characters 3 to 6 of the name
    of one of the files that pass the name test; no row has a missing or
    a textual year. *)
Theorem national_rows_year (z : Archive) (data : DataFrame) :
  national_from_archive z = Ok data ->
  Forall (fun row =>
            exists file year,
              In file (national_files z) /\
              py_int (slice file 3 7) = Ok year /\
              nth 3 row VNaN = VInt year)
    (rows data).
Proof.
  intros H. apply national_inv in H as (dfs & Hall & _ & ->).
  cbn [rows]. unfold unified_rows. apply Forall_map, Forall_forall.
  intros row Hin. rewrite (national_unified_year z _ dfs row Hall Hin).
  revert row Hin. apply Forall_forall. apply flat_map_Forall.
  apply Forall2_Forall_In in Hall.
  eapply Forall_impl; [|exact Hall].
  intros df (file & Hin & Hdf). cbn beta.
  apply national_entry_year in Hdf as (year & Hyear & Hrows).
  eapply Forall_impl; [|exact Hrows].
  intros row Hrow. exists file, year. auto.
Qed.

Lemma national_rows_year_witness :
  Forall (fun row =>
            exists file year,
              In file (national_files names_zip) /\
              py_int (slice file 3 7) = Ok year /\
              nth 3 row VNaN = VInt year)
    (rows national_data).
Proof.
  apply (national_rows_year names_zip national_data).
  vm_compute. reflexivity.
Defined.

(** ** Rows and lines *)

Lemma entries_lines {A} (entry : A -> result DataFrame)
    (has_lines : A -> list (list string) -> Prop)
    (files : list A) (dfs : list DataFrame) :
  (forall file df, entry file = Ok df ->
     exists lines, has_lines file lines /\ nrows df = length lines) ->
  Forall2 (fun file df => entry file = Ok df) files dfs ->
  exists ls,
    Forall2 has_lines files ls /\
    length (flat_map rows dfs) = list_sum (map (@length (list string)) ls).
Proof.
  intros Hentry H. induction H as [|file df files dfs Hdf _ (ls & Hls & Hsum)].
  - exists []. split; [constructor | reflexivity].
  - destruct (Hentry file df Hdf) as (lines & Hlines & Hn).
    exists (lines :: ls). split; [constructor; assumption|].
    cbn [flat_map map list_sum]. rewrite length_app, Hsum.
    unfold nrows in Hn. rewrite Hn. reflexivity.
Qed.

Lemma national_entry_lines (z : Archive) (file : string) (df : DataFrame) :
  national_entry z file = Ok df ->
  exists lines, lines_of z file lines /\ nrows df = length lines.
Proof.
  intros H.
  apply national_entry_Ok in H as (c & df0 & y & Hopen & Hread & _ & _ & _ & Hrows & _).
  apply read_csv_Ok in Hread as (first & rest & Htok & _ & _ & Hn & _).
  exists (first :: rest). split; [exists c; auto|].
  unfold nrows in *. rewrite Hrows, length_map. exact Hn.
Qed.

Lemma state_entry_lines (z : Archive) (file : string) (df : DataFrame) :
  state_entry z file = Ok df ->
  exists lines, lines_of z file lines /\ nrows df = length lines.
Proof.
  intros H.
  apply state_entry_Ok in H as (c & df0 & Hopen & Hread & _ & _ & Hrows & _).
  apply read_csv_Ok in Hread as (first & rest & Htok & _ & _ & Hn & _).
  exists (first :: rest). split; [exists c; auto|].
  unfold nrows in *. rewrite Hrows. exact Hn.
Qed.

(** X7. A returned data set has one row for each line that the tokenizer
    finds in the files that pass the name test, as the loader opens them:
    no line is left out and none gives two rows. *)
Theorem rows_are_lines (z : Archive) (data : DataFrame) :
  (national_from_archive z = Ok data ->
   exists ls,
     Forall2 (lines_of z) (national_files z) ls /\
     nrows data = list_sum (map (@length (list string)) ls)) /\
  (state_from_archive z = Ok data ->
   exists ls,
     Forall2 (lines_of z) (state_files z) ls /\
     nrows data = list_sum (map (@length (list string)) ls)).
Proof.
  split; intros H.
  - apply national_inv in H as (dfs & Hall & _ & ->).
    unfold nrows. cbn [rows]. rewrite unified_rows_length.
    apply (entries_lines _ (lines_of z) _ _ (national_entry_lines z) Hall).
  - apply state_inv in H as (dfs & Hall & _ & ->).
    unfold nrows. cbn [rows]. rewrite unified_rows_length.
    apply (entries_lines _ (lines_of z) _ _ (state_entry_lines z) Hall).
Qed.

Lemma rows_are_lines_witness :
  (exists ls,
     Forall2 (lines_of names_zip) (national_files names_zip) ls /\
     nrows national_data = list_sum (map (@length (list string)) ls)) /\
  (exists ls,
     Forall2 (lines_of namesbystate_zip) (state_files namesbystate_zip) ls /\
     nrows state_table = list_sum (map (@length (list string)) ls)).
Proof.
  split.
  - apply (proj1 (rows_are_lines names_zip national_data)).
    vm_compute. reflexivity.
  - apply (proj2 (rows_are_lines namesbystate_zip state_table)).
    vm_compute. reflexivity.
Defined.

(** ** Members of the same name *)

(** With a later member of the same name, the content of a member is never
    looked at. *)
Lemma zopen_shadowed (z1 z2 : Archive) (name c c' file : string) :
  In name (namelist z2) ->
  zopen (z1 ++ (name, c) :: z2) file = zopen (z1 ++ (name, c') :: z2) file.
Proof.
  intros Hin. unfold zopen, NameToInfo. rewrite !foldl_app. cbn [foldl fst snd].
  set (d1 := foldl (fun d member => <[fst member := snd member]> d) ∅ z1).
  assert (H : foldl (fun d member => <[fst member := snd member]> d)
                (<[name := c]> d1) z2 !! file =
              foldl (fun d member => <[fst member := snd member]> d)
                (<[name := c']> d1) z2 !! file).
  { destruct (string_dec name file) as [<-|Hne].
    - apply NameToInfo_shadowed, Hin.
    - apply NameToInfo_from. rewrite !lookup_insert_ne by exact Hne. reflexivity. }
  rewrite H. reflexivity.
Qed.

Lemma namelist_replace (z1 z2 : Archive) (name c c' : string) :
  namelist (z1 ++ (name, c) :: z2) = namelist (z1 ++ (name, c') :: z2).
Proof. unfold namelist. rewrite !map_app. reflexivity. Qed.

(** X8. When two members of an archive have the same name, the loaders
    read the content of the later one at each of the two places of the
    list of names: what the earlier member holds has no effect on the
    result, be it a data set or an exception. *)
Theorem shadowed_member_ignored (z1 z2 : Archive) (name c c' : string) :
  In name (namelist z2) ->
  national_from_archive (z1 ++ (name, c) :: z2) =
  national_from_archive (z1 ++ (name, c') :: z2) /\
  state_from_archive (z1 ++ (name, c) :: z2) =
  state_from_archive (z1 ++ (name, c') :: z2).
Proof.
  intros Hin. split.
  - rewrite !national_from_archive_eq. unfold national_files.
    rewrite (namelist_replace z1 z2 name c c').
    rewrite (mapM_ext_in (national_entry (z1 ++ (name, c) :: z2))
               (national_entry (z1 ++ (name, c') :: z2))); [reflexivity|].
    intros file _. unfold national_entry.
    rewrite (zopen_shadowed z1 z2 name c c' file Hin). reflexivity.
  - rewrite !state_from_archive_eq. unfold state_files.
    rewrite (namelist_replace z1 z2 name c c').
    rewrite (mapM_ext_in (state_entry (z1 ++ (name, c) :: z2))
               (state_entry (z1 ++ (name, c') :: z2))); [reflexivity|].
    intros file _. unfold state_entry.
    rewrite (zopen_shadowed z1 z2 name c c' file Hin). reflexivity.
Qed.

(** The rows of the later member come twice, those of the earlier never. *)
Lemma shadowed_member_ignored_witness :
  national_from_archive [("yob2000.txt", yob1999); ("yob2000.txt", yob2000)] =
  national_from_archive [("yob2000.txt", "no,such,line,here"); ("yob2000.txt", yob2000)] /\
  national_from_archive [("yob2000.txt", yob1999); ("yob2000.txt", yob2000)] =
  Ok (mkFrame national_columns
        [[VStr "Ann"; VStr "F"; VInt 7; VInt 2000];
         [VStr "Ann"; VStr "F"; VInt 7; VInt 2000]]).
Proof.
  split.
  - apply (proj1 (shadowed_member_ignored [] [("yob2000.txt", yob2000)]
                    "yob2000.txt" yob1999 "no,such,line,here"
                    (or_introl eq_refl))).
  - vm_compute. reflexivity.
Defined.

(** * The cache and the start of the script *)

Section Startup.

Variable net : nat -> string -> result Archive.

Lemma call_Raise_miss (k : loader) (p p' : Process) (e : exn) :
  call net k p = (Raise e, p') ->
  cache p !! k = None /\ p' = mkProcess (names_file k :: log p) (cache p).
Proof.
  destruct (cache p !! k) as [df|] eqn:Hk.
  - rewrite (call_hit net k p df Hk). discriminate.
  - rewrite (call_miss net k p Hk).
    destruct (fst (load net k p)); [discriminate|].
    intros [= _ <-]. auto.
Qed.

Lemma fetches_cons_same (k : loader) (l : list string) (c : gmap loader DataFrame) :
  fetches k (mkProcess (names_file k :: l) c) = S (fetches k (mkProcess l c)).
Proof.
  unfold fetches. cbn [log List.filter]. rewrite String.eqb_refl. reflexivity.
Qed.

Lemma fetches_cons_other (k k' : loader) (l : list string) (c : gmap loader DataFrame) :
  k <> k' ->
  fetches k (mkProcess (names_file k' :: l) c) = fetches k (mkProcess l c).
Proof.
  intros Hne. unfold fetches. cbn [log List.filter].
  rewrite (names_file_inj k k' Hne). reflexivity.
Qed.

End Startup.

(** X9. A call that raises leaves nothing in the cache: it has sent one
    request, the cache is what it was, and the next call of the same
    loader sends a request again, whatever the network then answers. *)
Theorem failed_call_not_cached (net net' : nat -> string -> result Archive)
    (k : loader) (p p' : Process) (e : exn) :
  call net k p = (Raise e, p') ->
  cache p' = cache p /\
  log p' = names_file k :: log p /\
  log (snd (call net' k p')) = names_file k :: names_file k :: log p.
Proof.
  intros H. apply call_Raise_miss in H as [Hmiss ->]. cbn [cache log].
  split; [reflexivity|]. split; [reflexivity|].
  rewrite call_miss_log by exact Hmiss. reflexivity.
Qed.

Lemma failed_call_not_cached_witness :
  log (snd (call ssa_gov National (snd (call offline National start)))) =
  [names_file National; names_file National].
Proof.
  apply (proj2 (proj2 (failed_call_not_cached offline ssa_gov National start
                         (snd (call offline National start)) ConnectionError
                         eq_refl))).
Defined.

(** X10. After one start of the script that got both tables, every
    later run gets the same two tables and leaves the process as it is,
    whatever the network has become. *)
Theorem startup_rerun (net net' : nat -> string -> result Archive)
    (p p' : Process) (national_data state_data : DataFrame) :
  startup net p = (Ok (national_data, state_data), p') ->
  startup net' p' = (Ok (national_data, state_data), p').
Proof.
  unfold startup. intros H.
  destruct (call net National p) as [r1 p1] eqn:E1.
  destruct r1 as [n|]; [|discriminate].
  destruct (call net State p1) as [r2 p2] eqn:E2.
  destruct r2 as [s|]; [|discriminate].
  injection H as <- <- <-.
  pose proof (call_Ok_cached net National p p1 n E1) as HN.
  pose proof (call_Ok_cached net State p1 p2 s E2) as HS.
  pose proof (call_keeps net National State p1 n HN) as HN2.
  rewrite E2 in HN2. cbn [snd] in HN2.
  rewrite (call_hit net' National p2 n HN2).
  rewrite (call_hit net' State p2 s HS). reflexivity.
Qed.

Lemma startup_rerun_witness :
  startup offline (snd (startup ssa_gov start)) =
  (Ok (national_data, state_table), snd (startup ssa_gov start)).
Proof.
  apply (startup_rerun ssa_gov offline start).
  vm_compute. reflexivity.
Defined.

(** X11. When the call of the national loader raises, the script ends
    with that exception before the state loader is called: one request
    has gone to the national address, none to the state address, and the
    cache is unchanged. *)
Theorem startup_national_failure (net : nat -> string -> result Archive)
    (p p1 : Process) (e : exn) :
  call net National p = (Raise e, p1) ->
  startup net p = (Raise e, p1) /\
  fetches National p1 = S (fetches National p) /\
  fetches State p1 = fetches State p /\
  cache p1 = cache p.
Proof.
  intros H. unfold startup. rewrite H. split; [reflexivity|].
  apply call_Raise_miss in H as [_ ->].
  destruct p as [l c]. cbn [log cache].
  rewrite fetches_cons_same, fetches_cons_other by discriminate. auto.
Qed.

Lemma startup_national_failure_witness :
  startup offline start =
    (Raise ConnectionError, mkProcess [names_file National] ∅) /\
  fetches State (mkProcess [names_file National] ∅) = 0.
Proof.
  pose proof (startup_national_failure offline start
                (mkProcess [names_file National] ∅) ConnectionError eq_refl)
    as (H1 & _ & H2 & _).
  split; [exact H1 | exact H2].
Defined.

(** X12. When the national table is in the cache and the state table is
    not, as after a start in which only the state loader raised, a run of
    the script sends exactly one request, to the state address. *)
Theorem startup_retry_state_only (net : nat -> string -> result Archive)
    (p : Process) (national_data : DataFrame) :
  cache p !! National = Some national_data ->
  cache p !! State = None ->
  log (snd (startup net p)) = names_file State :: log p.
Proof.
  intros HN HS. unfold startup.
  rewrite (call_hit net National p national_data HN).
  pose proof (call_miss_log net State p HS) as Hlog.
  destruct (call net State p) as [r2 p2]. cbn [snd] in Hlog.
  destruct r2; cbn [snd]; exact Hlog.
Qed.

Lemma startup_retry_state_only_witness :
  fst (startup national_only start) = Raise ConnectionError /\
  log (snd (startup ssa_gov (snd (startup national_only start)))) =
  [names_file State; names_file State; names_file National].
Proof.
  split; [vm_compute; reflexivity|].
  apply (startup_retry_state_only ssa_gov (snd (startup national_only start))
           national_data).
  - vm_compute. reflexivity.
  - vm_compute. reflexivity.
Defined.

(** * The selections of the script *)

Lemma select_mask (df : DataFrame) (l : label) (i : nat) (f : value -> bool) :
  index_of l (columns df) = Some i ->
  (col ← getitem df l; Ok (getitem_mask df (map f col))) =
  Ok (mkFrame (columns df) (List.filter (fun row => f (nth i row VNaN)) (rows df))).
Proof.
  intros Hi. unfold getitem. rewrite Hi. cbn [mbind result_bind].
  unfold getitem_mask. rewrite map_map, pick_map. reflexivity.
Qed.

Lemma isin_gender_filter (male female : bool) (v : value) :
  isin (gender_filter male female) v =
  (male && bool_decide (v = VStr "M")) || (female && bool_decide (v = VStr "F")).
Proof.
  destruct v as [z|lit|b|s| ]; try (destruct male, female; reflexivity).
  unfold isin.
  destruct (String.eqb_spec s "M") as [->|HM];
    [destruct male, female; reflexivity|].
  destruct (String.eqb_spec s "F") as [->|HF];
    [destruct male, female; reflexivity|].
  rewrite !bool_decide_eq_false_2 by congruence.
  destruct male, female; cbn;
    rewrite ?(proj2 (String.eqb_neq _ _) HM), ?(proj2 (String.eqb_neq _ _) HF);
    reflexivity.
Qed.

(** X13. The selection by the two check boxes keeps, in their order,
    exactly the rows whose sex is the string [M] with the first box
    checked or the string [F] with the second; with no box checked it
    keeps no row, whatever the table. *)
Theorem gender_selection (name_data : DataFrame) (male female : bool) (i : nat) :
  index_of (LName "sex") (columns name_data) = Some i ->
  exists selected,
    select_genders name_data (gender_filter male female) = Ok selected /\
    columns selected = columns name_data /\
    rows selected =
      List.filter (fun row => (male && bool_decide (nth i row VNaN = VStr "M"))
                              || (female && bool_decide (nth i row VNaN = VStr "F")))
        (rows name_data) /\
    (male = false -> female = false -> rows selected = []).
Proof.
  intros Hi. unfold select_genders.
  rewrite (select_mask name_data _ i _ Hi).
  eexists. split; [reflexivity|]. split; [reflexivity|]. cbn [rows].
  assert (Hext : forall row,
            isin (gender_filter male female) (nth i row VNaN) =
            (male && bool_decide (nth i row VNaN = VStr "M"))
            || (female && bool_decide (nth i row VNaN = VStr "F")))
    by (intros row; apply isin_gender_filter).
  split.
  - apply List.filter_ext. exact Hext.
  - intros -> ->. induction (rows name_data) as [|row l IH]; [reflexivity|].
    cbn [List.filter]. rewrite Hext. cbn. exact IH.
Qed.

Lemma gender_selection_witness :
  exists selected,
    select_genders names_by_year (gender_filter false true) = Ok selected /\
    rows selected = [[VStr "Mary"; VStr "F"; VInt 90; VInt 1999]].
Proof.
  destruct (gender_selection names_by_year false true 1 eq_refl)
    as (selected & Hsel & _ & Hrows & _).
  exists selected. split; [exact Hsel|]. rewrite Hrows. reflexivity.
Defined.

Lemma filter_none {A} (f : A -> bool) (l : list A) :
  Forall (fun x => f x = false) l -> List.filter f l = [].
Proof.
  induction 1 as [|x l Hx _ IH]; [reflexivity|].
  cbn [List.filter]. rewrite Hx, IH. reflexivity.
Qed.








(** X15. The Name Trends view with an empty name box ends in a
    [NameError]: [name_data] is read in the second column and was never
    assigned. With a name in the box it never does; it then ends in an
    exception of a library call, or shows the warning alone, or draws
    the chart and goes on to the statistics block with one and the same
    table of at least one row. *)
Theorem name_trends_outcomes (input_name : string) (selection : result DataFrame)
    (genders : list string) :
  (input_name = "" ->
   name_trends input_name selection genders = NameError "name_data") /\
  (input_name <> "" ->
   (exists e, name_trends input_name selection genders = LibraryError e) \/
   name_trends input_name selection genders =
     Page [Warning "No data found for this name in the selected region(s)"] \/
   (exists data,
      1 <= nrows data /\
      name_trends input_name selection genders =
        Page [PlotlyChart data; NameStatistics data])).
Proof.
  split.
  - intros ->. reflexivity.
  - intros Hname. unfold name_trends.
    rewrite (proj2 (String.eqb_neq _ _) Hname). cbn [negb].
    destruct selection as [d|e]; [|left; eauto].
    destruct (select_genders d genders) as [d'|e]; [|left; eauto].
    destruct (empty d') eqn:E; cbn [negb]; unfold name_trends_col2; rewrite E;
      cbn [negb].
    + right. left. reflexivity.
    + right. right. exists d'. split; [|reflexivity].
      unfold empty in E. apply orb_false_elim in E as [_ E].
      apply Nat.eqb_neq in E. unfold nrows. lia.
Qed.

Lemma name_trends_outcomes_witness :
  name_trends "" (Ok names_by_year) ["M"; "F"] = NameError "name_data" /\
  ((exists e, name_trends "John" (Ok names_by_year) [] = LibraryError e) \/
   name_trends "John" (Ok names_by_year) [] =
     Page [Warning "No data found for this name in the selected region(s)"] \/
   (exists data,
      1 <= nrows data /\
      name_trends "John" (Ok names_by_year) [] =
        Page [PlotlyChart data; NameStatistics data])).
Proof.
  split.
  - apply (proj1 (name_trends_outcomes "" (Ok names_by_year) ["M"; "F"])).
    reflexivity.
  - apply (proj2 (name_trends_outcomes "John" (Ok names_by_year) [])).
    discriminate.
Defined.

(** X16. With a name in the box, a selection that returns a table with a
    [sex] column, and no check box checked, the Name Trends view shows
    the warning that no data was found and nothing else, however many
    rows the selection had. *)
Theorem no_gender_no_data (input_name : string) (name_data : DataFrame) (i : nat) :
  input_name <> "" ->
  index_of (LName "sex") (columns name_data) = Some i ->
  name_trends input_name (Ok name_data) (gender_filter false false) =
  Page [Warning "No data found for this name in the selected region(s)"].
Proof.
  intros Hname Hi. unfold name_trends.
  rewrite (proj2 (String.eqb_neq _ _) Hname). cbn [negb].
  unfold select_genders. rewrite (select_mask name_data _ i _ Hi).
  rewrite filter_none.
  - unfold name_trends_col2, empty. cbn [rows length Nat.eqb].
    rewrite orb_true_r. reflexivity.
  - apply Forall_forall. intros row _. rewrite isin_gender_filter. reflexivity.
Qed.

Lemma no_gender_no_data_witness :
  name_trends "John" (Ok names_by_year) (gender_filter false false) =
  Page [Warning "No data found for this name in the selected region(s)"].
Proof.
  apply (no_gender_no_data "John" names_by_year 1); [discriminate | reflexivity].
Defined.

(** * The loader of the MLB dashboard, continued *)

Lemma index_of_None (l : label) (cols : list label) :
  index_of l cols = None <-> ~ In l cols.
Proof.
  induction cols as [|c cols IH]; cbn [index_of].
  - split; [intros _ [] | reflexivity].
  - destruct (decide (c = l)) as [->|Hne].
    + split; [discriminate | intros H; exfalso; apply H; left; reflexivity].
    + destruct (index_of l cols) as [i|]; cbn.
      * split; [discriminate|]. intros H. exfalso.
        assert (Hin : In l cols).
        { destruct (in_dec label_eq_dec l cols) as [Hin|Hnot]; [exact Hin|].
          apply IH in Hnot. discriminate. }
        apply H. right. exact Hin.
      * split; [|reflexivity]. intros _ [Heq|Hin]; [contradiction|].
        apply (proj1 IH eq_refl Hin).
Qed.

(** The flags of the column names that are strings. *)
Lemma contains_Unnamed_names (cols : list label) :
  Forall (fun l => exists s, l = LName s) cols ->
  exists unnamed, mapM contains_Unnamed cols = Ok unnamed.
Proof.
  induction 1 as [|l cols (s & ->) _ (unnamed & IH)]; [exists []; reflexivity|].
  exists (startswith s "Unnamed" :: unnamed). cbn [mapM contains_Unnamed].
  cbn [mbind result_bind]. rewrite IH. reflexivity.
Qed.

(** The column [Team] is never taken away with the unnamed ones. *)
Lemma Team_kept (cols : list label) (unnamed : list bool) :
  mapM contains_Unnamed cols = Ok unnamed ->
  (In (LName "Team") (pick (map negb unnamed) cols) <-> In (LName "Team") cols).
Proof.
  intros H. apply mapM_Forall2 in H.
  induction H as [|l b cols unnamed Hl _ IH]; [reflexivity|].
  cbn [map]. rewrite pick_cons.
  destruct (decide (l = LName "Team")) as [->|Hne].
  - injection Hl as <-. cbn. split; intros _; left; reflexivity.
  - destruct (negb b); cbn [In]; rewrite IH; [reflexivity|].
    split; [intros H; right; exact H | intros [H|H]; [contradiction | exact H]].
Qed.

(** X17. For a table whose column names are all strings, [load_data]
    returns a table exactly when there is a column [Team], and raises
    [KeyError] when there is none; the unnamed columns it drops never
    include that one. *)
Theorem load_data_needs_Team (df0 : DataFrame) :
  Forall (fun l => exists s, l = LName s) (columns df0) ->
  (In (LName "Team") (columns df0) -> exists df, load_data (Ok df0) = Ok df) /\
  (~ In (LName "Team") (columns df0) -> load_data (Ok df0) = Raise KeyError).
Proof.
  intros Hnames.
  destruct (contains_Unnamed_names (columns df0) Hnames) as [unnamed Hmask].
  pose proof (Team_kept (columns df0) unnamed Hmask) as Hkept.
  unfold load_data. cbn [mbind result_bind]. rewrite Hmask.
  cbn [mbind result_bind]. unfold getitem, loc_columns. cbn [columns rows].
  destruct (index_of (LName "Team") (pick (map negb unnamed) (columns df0)))
    as [i|] eqn:Hi.
  - split; [intros _; eexists; reflexivity|].
    intros Hnot. exfalso. apply Hnot, Hkept.
    destruct (in_dec label_eq_dec (LName "Team")
                (pick (map negb unnamed) (columns df0))) as [Hin|Hout];
      [exact Hin|].
    apply index_of_None in Hout. congruence.
  - split; [|reflexivity].
    intros Hin. apply Hkept in Hin. apply index_of_None in Hi. contradiction.
Qed.

Lemma load_data_needs_Team_witness :
  (exists df, load_data (Ok baseball_data) = Ok df) /\
  load_data (Ok (mkFrame [LName "Player"; LName "Tm"] [[VStr "Aaron Judge"; VStr "NYY"]])) =
  Raise KeyError.
Proof.
  split.
  - apply (proj1 (load_data_needs_Team baseball_data
                    ltac:(repeat constructor; eexists; reflexivity))).
    cbn. auto.
  - apply (proj2 (load_data_needs_Team
                    (mkFrame [LName "Player"; LName "Tm"]
                       [[VStr "Aaron Judge"; VStr "NYY"]])
                    ltac:(repeat constructor; eexists; reflexivity))).
    cbn. intuition discriminate.
Defined.

Lemma picked_Team_cell (cols : list label) (unnamed : list bool) :
  mapM contains_Unnamed cols = Ok unnamed ->
  forall (row : list value) (i j : nat),
    length row = length cols ->
    index_of (LName "Team") (pick (map negb unnamed) cols) = Some i ->
    index_of (LName "Team") cols = Some j ->
    nth i (pick (map negb unnamed) row) VNaN = nth j row VNaN.
Proof.
  intros H. apply mapM_Forall2 in H.
  induction H as [|l b cols unnamed Hl _ IH]; intros row i j Hlen Hi Hj;
    [discriminate|].
  destruct row as [|v row]; [discriminate|].
  cbn [map] in *. rewrite !pick_cons. rewrite pick_cons in Hi.
  cbn [index_of] in Hj.
  injection Hlen as Hlen.
  destruct (decide (l = LName "Team")) as [->|Hne].
  - injection Hl as <-. injection Hj as <-.
    change (negb (startswith "Team" "Unnamed")) with true in *.
    cbn [index_of] in Hi. rewrite decide_True in Hi by reflexivity.
    injection Hi as <-. reflexivity.
  - destruct (index_of (LName "Team") cols) as [j'|] eqn:Hj'; [|discriminate].
    injection Hj as <-.
    destruct (negb b).
    + cbn [index_of] in Hi. rewrite decide_False in Hi by exact Hne.
      destruct (index_of (LName "Team") (pick (map negb unnamed) cols))
        as [i'|] eqn:Hi'; [|discriminate].
      injection Hi as <-. cbn [nth]. apply IH; auto.
    + cbn [nth]. apply IH; auto.
Qed.

Lemma filter_map_comm {A B} (f : A -> B) (p : B -> bool) (l : list A) :
  List.filter p (map f l) = map f (List.filter (fun x => p (f x)) l).
Proof.
  induction l as [|x l IH]; [reflexivity|].
  cbn [map List.filter]. destruct (p (f x)); cbn [map]; rewrite IH; reflexivity.
Qed.

(** X18. [load_data] removes the rows of team [2TM] and nothing else:
    of a table with one cell for each column in every row, the rows it
    returns are, in their order, all the rows whose [Team] is not the
    string [2TM], each without the cells of the unnamed columns. *)
Theorem load_data_rows (df0 df : DataFrame) (unnamed : list bool) (j : nat) :
  rows_of_width (length (columns df0)) df0 ->
  mapM contains_Unnamed (columns df0) = Ok unnamed ->
  index_of (LName "Team") (columns df0) = Some j ->
  load_data (Ok df0) = Ok df ->
  columns df = pick (map negb unnamed) (columns df0) /\
  rows df =
    map (pick (map negb unnamed))
      (List.filter (fun row => ne_str "2TM" (nth j row VNaN)) (rows df0)).
Proof.
  intros Hw Hmask Hj H. unfold load_data in H. cbn [mbind result_bind] in H.
  rewrite Hmask in H. cbn [mbind result_bind] in H.
  unfold getitem in H.
  destruct (index_of (LName "Team") (columns (loc_columns df0 (map negb unnamed))))
    as [i|] eqn:Hi; [|discriminate].
  cbn [mbind result_bind] in H. injection H as <-.
  split; [reflexivity|].
  unfold getitem_mask, loc_columns. cbn [rows columns].
  rewrite map_map, pick_map, filter_map_comm. f_equal.
  apply List.filter_ext_in. intros row Hrow. f_equal.
  apply (picked_Team_cell (columns df0) unnamed Hmask row i j).
  - unfold rows_of_width in Hw. rewrite Forall_forall in Hw. apply Hw, Hrow.
  - exact Hi.
  - exact Hj.
Qed.

Lemma load_data_rows_witness :
  exists df,
    load_data (Ok baseball_data) = Ok df /\
    rows df = [[VStr "Aaron Judge"; VStr "NYY"; VInt 58];
               [VStr "Free Agent"; VNaN; VInt 3]].
Proof.
  eexists. split; [vm_compute; reflexivity|].
  refine (proj2 (load_data_rows baseball_data _ [true; false; false; false] 2
                   _ eq_refl eq_refl eq_refl)).
  repeat constructor.
Defined.

(** * Archives put together, blank files, the first failure *)










Lemma skipped_char_cases (c : ascii) :
  skipped_char c = true -> c = LF \/ c = CR \/ c = SPACE \/ c = TAB.
Proof.
  unfold skipped_char, is_blank. intros H.
  destruct (Ascii.eqb_spec c LF); [auto|].
  destruct (Ascii.eqb_spec c CR); [auto|].
  destruct (Ascii.eqb_spec c SPACE); [auto|].
  destruct (Ascii.eqb_spec c TAB); [auto|]. discriminate.
Qed.

Lemma tokenize_char_skipped (p : parser_t) (c : ascii) :
  skipped_char c = true -> no_line_yet p -> no_line_yet (tokenize_char p c).
Proof.
  intros Hc (Hstate & Hline & Hlines).
  destruct p as [st fld line lines]. cbn [tk_state tk_line tk_lines] in *. subst.
  apply skipped_char_cases in Hc.
  destruct Hstate as [-> | [-> | ->]];
    destruct Hc as [-> | [-> | [-> | ->]]];
    vm_compute; auto.
Qed.

Lemma tokenize_skipped (content : string) :
  forallb skipped_char (chars content) = true -> tokenize content = Ok [].
Proof.
  intros H. unfold tokenize.
  assert (Hinv : forall l p, forallb skipped_char l = true -> no_line_yet p ->
                             no_line_yet (foldl tokenize_char p l)).
  { induction l as [|c l IH]; intros p Hl Hp; [exact Hp|].
    cbn [forallb] in Hl. apply andb_prop in Hl as [Hc Hl].
    cbn [foldl]. apply IH; [exact Hl|]. apply tokenize_char_skipped; assumption. }
  specialize (Hinv (chars content) (mkParser START_RECORD [] [] []) H).
  destruct Hinv as (Hstate & _ & Hlines); [repeat split; auto|].
  unfold handle_eof. rewrite Hlines.
  destruct Hstate as [-> | [-> | ->]]; reflexivity.
Qed.

Lemma read_csv_skipped (content : string) :
  forallb skipped_char (chars content) = true ->
  read_csv content = Raise EmptyDataError.
Proof.
  intros H. unfold read_csv. rewrite (tokenize_skipped content H). reflexivity.
Qed.

(** X20. A file that passes the name test and holds nothing, or nothing
    but line ends, spaces and tabs, gives no empty table: [read_csv]
    raises on it and so does the loader, whatever the other files hold. *)
Theorem blank_file_fails_load (z : Archive) (file content : string) :
  zopen z file = Ok content ->
  forallb skipped_char (chars content) = true ->
  (In file (national_files z) -> exists e, national_from_archive z = Raise e) /\
  (In file (state_files z) -> exists e, state_from_archive z = Raise e).
Proof.
  intros Hopen Hblank. split; intros Hin.
  - apply (national_entry_Raise z file EmptyDataError Hin).
    unfold national_entry. rewrite Hopen. cbn [mbind result_bind].
    rewrite (read_csv_skipped content Hblank). reflexivity.
  - apply (state_entry_Raise z file EmptyDataError Hin).
    unfold state_entry. rewrite Hopen. cbn [mbind result_bind].
    rewrite (read_csv_skipped content Hblank). reflexivity.
Qed.

Lemma blank_file_fails_load_witness :
  (exists e, national_from_archive
               [("yob1999.txt", yob1999); ("yob2000.txt", NL +:+ "  " +:+ NL)]
             = Raise e) /\
  (exists e, state_from_archive [("CA.TXT", CA_TXT); ("TX.TXT", "")] = Raise e).
Proof.
  split.
  - apply (proj1 (blank_file_fails_load
                    [("yob1999.txt", yob1999); ("yob2000.txt", NL +:+ "  " +:+ NL)]
                    "yob2000.txt" (NL +:+ "  " +:+ NL) eq_refl eq_refl)).
    vm_compute. auto.
  - apply (proj2 (blank_file_fails_load
                    [("CA.TXT", CA_TXT); ("TX.TXT", "")] "TX.TXT" "" eq_refl eq_refl)).
    vm_compute. auto.
Defined.

Lemma mapM_first_Raise {A B} (f : A -> result B) (before after : list A)
    (x : A) (e : exn) :
  Forall (fun a => exists b, f a = Ok b) before ->
  f x = Raise e ->
  mapM f (before ++ x :: after) = Raise e.
Proof.
  intros Hok Hx. induction Hok as [|a before (b & Hb) _ IH]; cbn [app mapM].
  - rewrite Hx. reflexivity.
  - rewrite Hb. cbn [mbind result_bind]. rewrite IH. reflexivity.
Qed.

(** X21. The exception that a loader raises in its loop is that of the
    first file, in the order of the archive, whose turn raises; the files
    after it play no part. *)
Theorem first_failure_raised (z : Archive) (before after : list string)
    (file : string) (e : exn) :
  (national_files z = before ++ file :: after ->
   Forall (fun f => exists df, national_entry z f = Ok df) before ->
   national_entry z file = Raise e ->
   national_from_archive z = Raise e) /\
  (state_files z = before ++ file :: after ->
   Forall (fun f => exists df, state_entry z f = Ok df) before ->
   state_entry z file = Raise e ->
   state_from_archive z = Raise e).
Proof.
  split; intros Hfiles Hok Hraise.
  - rewrite national_from_archive_eq, Hfiles.
    rewrite (mapM_first_Raise _ before after file e Hok Hraise). reflexivity.
  - rewrite state_from_archive_eq, Hfiles.
    rewrite (mapM_first_Raise _ before after file e Hok Hraise). reflexivity.
Qed.

Lemma first_failure_raised_witness :
  national_from_archive
    [("yob1999.txt", yob1999); ("yob2000.txt", "Ann,F"); ("yobXXXX.txt", "")] =
  Raise ValueError /\
  state_from_archive
    [("CA.TXT", CA_TXT); ("TX.TXT", ""); ("NY.TXT", "NY,F")] =
  Raise EmptyDataError.
Proof.
  split.
  - apply (proj1 (first_failure_raised _ ["yob1999.txt"] ["yobXXXX.txt"]
                    "yob2000.txt" ValueError)).
    + reflexivity.
    + constructor; [|constructor]. eexists. vm_compute. reflexivity.
    + vm_compute. reflexivity.
  - apply (proj2 (first_failure_raised _ ["CA.TXT"] ["NY.TXT"]
                    "TX.TXT" EmptyDataError)).
    + reflexivity.
    + constructor; [|constructor]. eexists. vm_compute. reflexivity.
    + vm_compute. reflexivity.
Defined.
